(** * pytableformat: format specifications, columns and tables

    A shallow embedding of [pytableformat/pytableformat.py] and the
    properties of its three classes, [Format], [Column] and [Table].

    - A Python [str] is a list of code points.  Code points are the 8-bit
      ones ([ascii], the Latin-1 range); the classes [\d], [\s] and [\S] of
      the regular expressions are the restrictions of Python's to that range.
    - A raised exception is an [Err]; every exception the module raises itself
      is a [ValueError], and the constructors of [error] name the raise sites.
    - The two regular expressions are embedded as backtracking matchers in
      continuation-passing style, alternatives tried in the order [re] tries
      them, the first success returned.
    - [str.format], which the module calls and does not define, is a
      parameter (class [Host]). *)

From Stdlib Require Import Ascii String DecimalString Bool Arith Lia List.
Import ListNotations.

Definition str := list ascii.
Coercion list_ascii_of_string : string >-> list.

Open Scope char_scope.
Open Scope string_scope.
Open Scope list_scope.
Open Scope nat_scope.

(** ** Exceptions *)

Inductive error : Type :=
| InvalidFormatString   (* ValueError("Invalid format string ...") in Format.__init__ *)
| InvalidColumnFormat   (* ValueError("Invalid column format ...") in Column.__init__ *)
| UnpackError           (* ValueError of the unpacking of hrule_format into three *)
| HeadersLengthMismatch (* ValueError("Columns and headers length mismatch") in Table.__init__ *)
| EmptyMax              (* ValueError of max() on an empty iterable *)
| HostFormatError       (* whatever str.format raises *)
| ZipStrictError.       (* ValueError of zip(..., strict=True) on unequal lengths *)

Inductive result (A : Type) : Type :=
| Ok (a : A)
| Err (e : error).
Arguments Ok {A} a.
Arguments Err {A} e.

Definition bind {A B : Type} (m : result A) (k : A -> result B) : result B :=
  match m with
  | Ok a => k a
  | Err e => Err e
  end.

Notation "x <- m ;; k" := (bind m (fun x => k))
  (at level 61, m at next level, right associativity).

Definition of_option {A : Type} (e : error) (o : option A) : result A :=
  match o with
  | Some a => Ok a
  | None => Err e
  end.

(** ** Strings *)

(** [bool(s)] of a string: non-empty. *)
Definition truthy {A : Type} (s : list A) : bool :=
  match s with
  | [] => false
  | _ :: _ => true
  end.

(** [s * n] *)
Fixpoint str_mul (s : str) (n : nat) : str :=
  match n with
  | 0 => []
  | S n' => s ++ str_mul s n'
  end.

(** [str(n)] of a non-negative [int]. *)
Definition str_of_nat (n : nat) : str :=
  NilZero.string_of_uint (Nat.to_uint n).

(** [sep.join(parts)] *)
Fixpoint join (sep : str) (parts : list str) : str :=
  match parts with
  | [] => []
  | [p] => p
  | p :: ps => p ++ sep ++ join sep ps
  end.

(** [max] of a non-empty iterable of lengths; raises on an empty one. *)
Definition py_max (l : list nat) : result nat :=
  match l with
  | [] => Err EmptyMax
  | n :: ns => Ok (fold_left Nat.max ns n)
  end.

(** [list.insert(i, x)]: an index past the end appends. *)
Definition list_insert {A : Type} (i : nat) (x : A) (l : list A) : list A :=
  firstn i l ++ x :: skipn i l.

Definition escape_curly (string : str) : str :=
  flat_map (fun c =>
    if (c =? "{")%char then "{{" : str
    else if (c =? "}")%char then "}}" : str
    else [c]) string.

Definition is_brace (c : ascii) : bool := (c =? "{")%char || (c =? "}")%char.

(** A text without braces. *)
Definition plain (s : str) : Prop := Forall (fun c => is_brace c = false) s.

(** ** Character classes of the two patterns *)

Definition char_in (cs : str) (c : ascii) : bool :=
  existsb (Ascii.eqb c) cs.

Definition newline : ascii := "010"%char.

(** [.] without DOTALL: anything but a newline. *)
Definition dot (c : ascii) : bool := negb (c =? newline)%char.
Definition is_align : ascii -> bool := char_in "<>=^".
Definition is_sign : ascii -> bool := char_in "+- ".
(** [\d] on the 8-bit range: there the decimal digits are [0] to [9].
    Beyond that range [\d] on a [str] matches every Unicode decimal digit;
    such texts are outside [str] as it is here. *)
Definition is_digit (c : ascii) : bool :=
  ((48 <=? nat_of_ascii c) && (nat_of_ascii c <=? 57))%nat.
Definition is_grouping : ascii -> bool := char_in ",_".
Definition is_type : ascii -> bool := char_in "bcdeEfFgGnosxX%".

(** [\s] on [str]: the code points for which [str.isspace] holds. *)
Definition is_space (c : ascii) : bool :=
  let n := nat_of_ascii c in
  (((9 <=? n) && (n <=? 13)) || ((28 <=? n) && (n <=? 32))
   || (n =? 133) || (n =? 160))%nat.
Definition non_space (c : ascii) : bool := negb (is_space c).

(** ** Backtracking matchers

    A matcher gets the input left and a continuation, which gets the text
    the matcher captured and the input after it.  [None] is a failed branch;
    the first branch to succeed is the match. *)

Module Re.
Section Matchers.
Context {R : Type}.

Definition cont : Type := str -> str -> option R.
Definition matcher : Type := str -> cont -> option R.

(** one character of a class *)
Definition chr (P : ascii -> bool) : matcher := fun s k =>
  match s with
  | c :: s' => if P c then k [c] s' else None
  | [] => None
  end.

(** [m?], greedy *)
Definition opt (m : matcher) : matcher := fun s k =>
  match m s k with
  | Some r => Some r
  | None => k [] s
  end.

(** [P*], greedy: the longest run first, then shorter ones *)
Fixpoint star (P : ascii -> bool) (s : str) (k : cont) : option R :=
  match s with
  | c :: s' =>
      if P c then
        match star P s' (fun cap rest => k (c :: cap) rest) with
        | Some r => Some r
        | None => k [] s
        end
      else k [] s
  | [] => k [] s
  end.

(** [P+], greedy *)
Definition plus (P : ascii -> bool) : matcher := fun s k =>
  match s with
  | c :: s' => if P c then star P s' (fun cap rest => k (c :: cap) rest) else None
  | [] => None
  end.

(** A continuation that fails on nothing. *)
Definition total (k : cont) : Prop := forall cap rest, k cap rest <> None.
End Matchers.
End Re.

(** ** The host's formatting

    [template.format(value)], for a template with a single replacement field:
    [None] when the call raises.  [empty_string] is the Python value [""]. *)

Class Host : Type := {
  Value : Type;
  empty_string : Value;
  str_format : str -> Value -> option str
}.

(** ** Format *)

Module Format.

Record t : Type := mk {
  fill : str;
  align : str;
  sign : str;
  z : str;
  alt : str;
  zero : str;
  width : str;
  grouping_option : str;
  precision : str;
  type : str
}.

(** [Format.pattern], from its first group to its last.  The continuation
    gets the ten named groups, a group that did not take part in the match
    ([None] in [groupdict()]) as [""], which is what [__init__] makes of it
    with [or ""]. *)
Definition pattern {R : Type} (s : str) (k : t -> str -> option R) : option R :=
  let tail (fill align : str) (s : str) : option R :=
    Re.opt (Re.chr is_sign) s (fun sign s =>
    Re.opt (Re.chr (Ascii.eqb "z"%char)) s (fun z s =>
    Re.opt (Re.chr (Ascii.eqb "#"%char)) s (fun alt s =>
    Re.opt (Re.chr (Ascii.eqb "0"%char)) s (fun zero s =>
    Re.opt (Re.plus is_digit) s (fun width s =>
    Re.opt (Re.chr is_grouping) s (fun grouping_option s =>
    Re.opt (fun s k' =>
              Re.chr (Ascii.eqb "."%char) s (fun _ s => Re.plus is_digit s k'))
           s (fun precision s =>
    Re.opt (Re.chr is_type) s (fun type s =>
    k (mk fill align sign z alt zero width grouping_option precision type)
      s)))))))) in
  match
    Re.opt (Re.chr dot) s (fun fill s =>
    Re.chr is_align s (fun align s => tail fill align s))
  with
  | Some r => Some r
  | None => tail [] [] s
  end.

(** [pattern.match(format)]: anchored at the start only.  The result is the
    groups and the input after [match.end()]. *)
Definition pattern_match (format : str) : option (t * str) :=
  pattern format (fun groups rest => Some (groups, rest)).

Definition __init__ (format : str) : result t :=
  match pattern_match format with
  | None => Err InvalidFormatString
  | Some (groups, rest) =>
      (* match.end() != len(format) *)
      if truthy rest then Err InvalidFormatString else Ok groups
  end.

(** The text between ["{:"] and ["}"] in [__str__]. *)
Definition spec_text (self : t) : str :=
  let precision :=
    if truthy (precision self) then "." ++ precision self else precision self in
  fill self ++ align self ++ sign self ++ z self ++ alt self ++ zero self
  ++ width self ++ grouping_option self ++ precision ++ type self.

Definition __str__ (self : t) : str :=
  "{:" ++ spec_text self ++ "}".

Definition set_width (self : t) (w : str) : t :=
  mk (fill self) (align self) (sign self) (z self) (alt self) (zero self)
     w (grouping_option self) (precision self) (type self).

Definition set_precision (self : t) (p : str) : t :=
  mk (fill self) (align self) (sign self) (z self) (alt self) (zero self)
     (width self) (grouping_option self) p (type self).

(** *** Vocabulary of the statements *)

(** The grammar of the docstring,
    [[[fill]align][sign]["z"]["#"]["0"][width][grouping_option]["." precision][type]],
    as a set of strings: the text is the concatenation of ten parts, each
    absent or of its kind.  [fill_ok] says which characters can fill. *)
Definition optional (P : ascii -> bool) (x : str) : Prop :=
  x = [] \/ exists c, x = [c] /\ P c = true.

Definition digits (x : str) : Prop := Forall (fun c => is_digit c = true) x.

Definition grammar (fill_ok : ascii -> bool) (s : str) : Prop :=
  exists fill align sign z alt zero width grouping_option precision type,
    s = fill ++ align ++ sign ++ z ++ alt ++ zero ++ width ++ grouping_option
        ++ precision ++ type
    /\ ((fill = [] /\ optional is_align align)
        \/ (exists c a, fill = [c] /\ fill_ok c = true
                        /\ align = [a] /\ is_align a = true))
    /\ optional is_sign sign
    /\ optional (Ascii.eqb "z"%char) z
    /\ optional (Ascii.eqb "#"%char) alt
    /\ optional (Ascii.eqb "0"%char) zero
    /\ digits width
    /\ optional is_grouping grouping_option
    /\ (precision = []
        \/ exists ds, precision = "."%char :: ds /\ ds <> [] /\ digits ds)
    /\ optional is_type type.

(** A replacement field without its ["{:"] and its ["}"]. *)
Definition spec_of (field : str) : str := removelast (skipn 2 field).

(** The grammar as the documentation of the mini-language has it: any
    character can fill. *)
Definition spec_grammar : str -> Prop := grammar (fun _ => true).

(** The grammar with the fill that [.] matches. *)
Definition pattern_grammar : str -> Prop := grammar dot.

(** *** The pattern read greedily

    What the matcher comes to when nothing after a group can fail: every
    group takes the most it can, once. *)

Definition take1 (P : ascii -> bool) (s : str) : str * str :=
  match s with
  | c :: s' => if P c then ([c], s') else ([], s)
  | [] => ([], s)
  end.

Fixpoint span (P : ascii -> bool) (s : str) : str * str :=
  match s with
  | c :: s' => if P c then (c :: fst (span P s'), snd (span P s')) else ([], s)
  | [] => ([], s)
  end.

Definition take_precision (s : str) : str * str :=
  match s with
  | c :: d :: s' =>
      if (c =? ".")%char && is_digit d
      then (d :: fst (span is_digit s'), snd (span is_digit s'))
      else ([], s)
  | _ => ([], s)
  end.

Definition take_fill_align (s : str) : str * str * str :=
  match s with
  | c :: a :: s' =>
      if dot c && is_align a then ([c], [a], s')
      else if is_align c then ([], [c], a :: s')
      else ([], [], s)
  | [c] => if is_align c then ([], [c], []) else ([], [], s)
  | [] => ([], [], s)
  end.

Definition parse_tail (fill align : str) (s : str) : t * str :=
  let sign := take1 is_sign s in
  let z := take1 (Ascii.eqb "z"%char) (snd sign) in
  let alt := take1 (Ascii.eqb "#"%char) (snd z) in
  let zero := take1 (Ascii.eqb "0"%char) (snd alt) in
  let width := span is_digit (snd zero) in
  let grouping_option := take1 is_grouping (snd width) in
  let precision := take_precision (snd grouping_option) in
  let type := take1 is_type (snd precision) in
  (mk fill align (fst sign) (fst z) (fst alt) (fst zero) (fst width)
      (fst grouping_option) (fst precision) (fst type),
   snd type).

Definition parse (s : str) : t * str :=
  parse_tail (fst (fst (take_fill_align s))) (snd (fst (take_fill_align s)))
             (snd (take_fill_align s)).

(** *** Where a group can start

    The characters the rest of a specification can start with, from a group
    on.  [zero] is a digit, so it goes with [width]. *)

Definition from_precision (c : ascii) : bool := Ascii.eqb "."%char c || is_type c.
Definition from_grouping (c : ascii) : bool := is_grouping c || from_precision c.
Definition from_width (c : ascii) : bool := is_digit c || from_grouping c.
Definition from_alt (c : ascii) : bool := Ascii.eqb "#"%char c || from_width c.
Definition from_z (c : ascii) : bool := Ascii.eqb "z"%char c || from_alt c.
Definition from_sign (c : ascii) : bool := is_sign c || from_z c.

(** The first character of [s], if it has one, is of class [F]. *)
Definition first_in (F : ascii -> bool) (s : str) : Prop :=
  match s with
  | [] => True
  | c :: _ => F c = true
  end.

(** [Format.format]: [str(self).format(string)] *)
Definition format `{Host} (self : t) (string : Value) : result str :=
  of_option HostFormatError (str_format (__str__ self) string).

End Format.


(** ** HRule *)

Inductive HRule : Type := NONE | HEADER | FRAME | FRAME_HEADER | ALL.

(** The value of the [IntEnum] member, which [>=] compares. *)
Definition HRule_value (h : HRule) : nat :=
  match h with
  | NONE => 0
  | HEADER => 1
  | FRAME => 2
  | FRAME_HEADER => 3
  | ALL => 4
  end.

Definition HRule_ge (a b : HRule) : bool := HRule_value b <=? HRule_value a.

Definition HRule_eqb (a b : HRule) : bool := HRule_value a =? HRule_value b.

(** ** Column *)

Module Column.

Record t : Type := mk {
  left_border : str;
  left_padding : str;
  content_format : Format.t;
  width : str;
  right_padding : str;
  right_border : str;
  hrule : HRule;
  hrule_left_char : str;
  hrule_char : str;
  hrule_right_char : str
}.

Record groups : Type := mk_groups {
  g_left_border : str;
  g_left_padding : str;
  g_content_format : str;
  g_right_padding : str;
  g_right_border : str
}.

(** [Column.pattern.fullmatch(format)]: the whole input has to be used up,
    and the matcher backtracks until it is.  The group [content_format] is
    [""] where it is [None] in [groupdict()], as [__init__] reads it. *)
Definition pattern_fullmatch (format : str) : option groups :=
  Re.opt (Re.chr non_space) format (fun left_border s =>
  Re.star is_space s (fun left_padding s =>
  Re.chr (Ascii.eqb "{"%char) s (fun _ s =>
  Re.opt (fun s k' => Re.chr (Ascii.eqb ":"%char) s (fun _ s => Re.star dot s k'))
         s (fun content_format s =>
  Re.chr (Ascii.eqb "}"%char) s (fun _ s =>
  Re.star is_space s (fun right_padding s =>
  Re.opt (Re.chr non_space) s (fun right_border s =>
  if truthy s then None
  else Some (mk_groups left_border left_padding content_format
                       right_padding right_border)))))))).

Definition __init__ (format : str) (hrule : HRule) (hrule_format : str) : result t :=
  match pattern_fullmatch format with
  | None => Err InvalidColumnFormat
  | Some groups =>
      content_format <- Format.__init__ (g_content_format groups) ;;
      let width := Format.width content_format in
      let content_format :=
        Format.set_precision content_format (Format.width content_format) in
      match hrule_format with
      | [l; c; r] =>
          Ok (mk (g_left_border groups) (g_left_padding groups) content_format
                 width (g_right_padding groups) (g_right_border groups)
                 hrule [l] [c] [r])
      | _ => Err UnpackError
      end
  end.

Definition __str__ (self : t) : str :=
  escape_curly (left_border self) ++ left_padding self
  ++ Format.__str__ (content_format self) ++ right_padding self
  ++ escape_curly (right_border self).

Definition set_content_format (self : t) (f : Format.t) : t :=
  mk (left_border self) (left_padding self) f (width self)
     (right_padding self) (right_border self) (hrule self)
     (hrule_left_char self) (hrule_char self) (hrule_right_char self).

Definition set_hrule_left_char (self : t) (s : str) : t :=
  mk (left_border self) (left_padding self) (content_format self) (width self)
     (right_padding self) (right_border self) (hrule self)
     s (hrule_char self) (hrule_right_char self).

Definition set_hrule_right_char (self : t) (s : str) : t :=
  mk (left_border self) (left_padding self) (content_format self) (width self)
     (right_padding self) (right_border self) (hrule self)
     (hrule_left_char self) (hrule_char self) s.

(** *** Vocabulary of the statements *)

Definition spaces (x : str) : Prop := Forall (fun c => is_space c = true) x.

(** The part between the braces: nothing, or a colon and a specification
    on one line. *)
Definition field_body (body spec : str) : Prop :=
  (body = [] /\ spec = [])
  \/ (body = ":"%char :: spec /\ Forall (fun c => dot c = true) spec).

(** The format strings of the docstring,
    [[left_border][left_padding]{[:content_format]}[right_padding][right_border]],
    with what the pattern takes for a border, one character that is no
    space, and for a padding, any run of spaces. *)
Definition column_grammar (format : str) : Prop :=
  exists left_border left_padding body spec right_padding right_border,
    format = left_border ++ left_padding ++ "{" ++ body ++ "}"
             ++ right_padding ++ right_border
    /\ Format.optional non_space left_border
    /\ spaces left_padding
    /\ field_body body spec
    /\ spaces right_padding
    /\ Format.optional non_space right_border.

(** The number of lines of a column of [n] values, by policy. *)
Definition line_count (policy : HRule) (n : nat) : nat :=
  match policy with
  | NONE => n
  | HEADER => n + 1
  | FRAME => n + 2
  | FRAME_HEADER => if 1 <? n then n + 3 else n + 2
  | ALL => 2 * n + 1
  end.

Section WithHost.
Context `{Host}.

Definition total_width (self : t) : result nat :=
  empty <- Format.format (content_format self) empty_string ;;
  Ok (length (left_padding self) + length empty + length (right_padding self)).

(** [len(self.content_format.format(c)) for c in column], as [max] consumes it *)
Fixpoint content_lengths (f : Format.t) (column : list Value) : result (list nat) :=
  match column with
  | [] => Ok []
  | c :: column' =>
      r <- Format.format f c ;;
      rs <- content_lengths f column' ;;
      Ok (length r :: rs)
  end.

(** The [for col in column] loop, [output] the list appended to. *)
Fixpoint rows_loop (policy : HRule) (format hrule : str)
         (column : list Value) (output : list str) : result (list str) :=
  match column with
  | [] => Ok output
  | col :: column' =>
      line <- of_option HostFormatError (str_format format col) ;;
      let output := output ++ [line] in
      let output := if HRule_eqb policy ALL then output ++ [hrule] else output in
      rows_loop policy format hrule column' output
  end.

Definition hrule_line (self : t) : result str :=
  total_width <- total_width self ;;
  Ok (str_mul (hrule_left_char self) (Nat.b2n (truthy (left_border self)))
      ++ str_mul (hrule_char self) total_width
      ++ str_mul (hrule_right_char self) (Nat.b2n (truthy (right_border self)))).

(** The right-hand side of the assignment to [self.content_format.width]:
    the width given at construction, or the longest of the values as the
    content format renders them now. *)
Definition measure (self : t) (column : list Value) : result str :=
  if truthy (width self) then Ok (width self)
  else
    lens <- content_lengths (content_format self) column ;;
    m <- py_max lens ;;
    Ok (str_of_nat m).

(** The assignment itself. *)
Definition resize (self : t) (w : str) : t :=
  set_content_format self (Format.set_width (content_format self) w).

(** [Column.format]: the column as the call leaves it, and the lines it
    returns or the exception it raises.  The only attribute assigned is
    [content_format.width], and it is assigned before anything after the
    measuring can raise. *)
Definition format (self : t) (column : list Value) : t * result (list str) :=
  match measure self column with
  | Err e => (self, Err e)
  | Ok w =>
      let self := resize self w in
      (self,
       let format := __str__ self in
       hrule <- hrule_line self ;;
       let output := if HRule_ge (Column.hrule self) FRAME then [hrule] else [] in
       output <- rows_loop (Column.hrule self) format hrule column output ;;
       let output :=
         if HRule_eqb (Column.hrule self) HEADER then list_insert 1 hrule output
         else if HRule_eqb (Column.hrule self) FRAME_HEADER && (1 <? length column)
              then list_insert 2 hrule output
              else output in
       let output :=
         if HRule_eqb (Column.hrule self) FRAME
            || HRule_eqb (Column.hrule self) FRAME_HEADER
         then output ++ [hrule] else output in
       Ok output)
  end.

(** The column after a series of calls of [format], whatever they return. *)
Definition format_all (self : t) (calls : list (list Value)) : t :=
  fold_left (fun c column => fst (format c column)) calls self.

(** *** Vocabulary of the statements *)

(** Every value of the column under the row template, in order. *)
Fixpoint lines (template : str) (column : list Value) : result (list str) :=
  match column with
  | [] => Ok []
  | col :: column' =>
      line <- of_option HostFormatError (str_format template col) ;;
      rest <- lines template column' ;;
      Ok (line :: rest)
  end.

(** The layout of the five policies as the documentation of [HRule] words
    it, from the rule and the rendered lines. *)
Definition layout (policy : HRule) (hrule : str) (rendered : list str) : list str :=
  match policy with
  | NONE => rendered
  | HEADER =>
      match rendered with
      | [] => [hrule]
      | header :: rows => header :: hrule :: rows
      end
  | FRAME => hrule :: rendered ++ [hrule]
  | FRAME_HEADER =>
      match rendered with
      | header :: row :: rows => hrule :: header :: hrule :: row :: rows ++ [hrule]
      | _ => hrule :: rendered ++ [hrule]
      end
  | ALL => hrule :: flat_map (fun line => [line; hrule]) rendered
  end.
End WithHost.

End Column.

(** ** zip *)

(** One round of [zip]: the next item of every iterator, or [None] when one
    of them is exhausted. *)
Fixpoint next_all {A : Type} (ls : list (list A)) : option (list A * list (list A)) :=
  match ls with
  | [] => Some ([], [])
  | [] :: _ => None
  | (x :: l) :: ls' =>
      match next_all ls' with
      | Some (row, rest) => Some (x :: row, l :: rest)
      | None => None
      end
  end.

(** [zip] of the unpacked [ls], at least one iterable, the first of length
    [n]: it stops at the shortest. *)
Fixpoint zip_rounds {A : Type} (n : nat) (ls : list (list A)) : list (list A) :=
  match n with
  | 0 => []
  | S n' =>
      match next_all ls with
      | Some (row, rest) => row :: zip_rounds n' rest
      | None => []
      end
  end.

Definition zip_star {A : Type} (ls : list (list A)) : list (list A) :=
  match ls with
  | [] => []
  | l :: _ => zip_rounds (length l) ls
  end.

(** [zip] of the unpacked [ls] with [strict=True]: when an iterator is
    exhausted and another is not, it raises. *)
Fixpoint zip_strict_rounds {A : Type} (n : nat) (ls : list (list A))
  : result (list (list A)) :=
  match n with
  | 0 => if forallb (fun l => negb (truthy l)) ls then Ok [] else Err ZipStrictError
  | S n' =>
      match next_all ls with
      | Some (row, rest) => rows <- zip_strict_rounds n' rest ;; Ok (row :: rows)
      | None => Err ZipStrictError
      end
  end.

Definition zip_star_strict {A : Type} (ls : list (list A)) : result (list (list A)) :=
  match ls with
  | [] => Ok []
  | l :: _ => zip_strict_rounds (length l) ls
  end.

(** *** Vocabulary of the statements *)

(** Column [j] of row-major data: the [j]-th value of every row that has one. *)
Definition column_of {A : Type} (j : nat) (rows : list (list A)) : list A :=
  flat_map (fun row => match nth_error row j with
                        | Some x => [x]
                        | None => []
                        end) rows.

(** The column-major form of [rows] for a table of [n] columns, as the
    documentation words it: one column per table column, column [j] holding
    value [j] of every row, in the order of the rows. *)
Definition transpose {A : Type} (n : nat) (rows : list (list A)) : list (list A) :=
  map (fun j => column_of j rows) (seq 0 n).

(** ** Table *)

Module Table.
Section WithHost.
Context `{Host}.

Record t : Type := mk {
  headers : list Value;
  columns : list Column.t
}.

(** [[Column(format, hrule, hrule_format) for format in column_formats]] *)
Fixpoint make_columns (column_formats : list str) (hrule : HRule) (hrule_format : str)
  : result (list Column.t) :=
  match column_formats with
  | [] => Ok []
  | format :: rest =>
      c <- Column.__init__ format hrule hrule_format ;;
      cs <- make_columns rest hrule hrule_format ;;
      Ok (c :: cs)
  end.

(** [headers] is [None] or a list; an empty list is falsy, as [None] is. *)
Definition __init__ (column_formats : list str) (headers : option (list Value))
           (hrule : HRule) (hrule_format : str) : result t :=
  let given := match headers with Some hs => hs | None => [] end in
  if truthy given && negb (length column_formats =? length given)
  then Err HeadersLengthMismatch
  else
    columns <- make_columns column_formats hrule hrule_format ;;
    Ok (mk given columns).

(** [column.format(content) for column, content in zip(self.columns, columns)],
    run to its end or to the first exception: the columns as the calls
    leave them, and the lists of lines. *)
Fixpoint format_columns (cols : list Column.t) (contents : list (list Value))
  : list Column.t * result (list (list str)) :=
  match cols, contents with
  | column :: cols', content :: contents' =>
      match Column.format column content with
      | (column', Err e) => (column' :: cols', Err e)
      | (column', Ok lines) =>
          match format_columns cols' contents' with
          | (cols'', Err e) => (column' :: cols'', Err e)
          | (cols'', Ok rest) => (column' :: cols'', Ok (lines :: rest))
          end
      end
  | _, _ => (cols, Ok [])
  end.

(** The argument [columns] of [Table.format] is [input] here, the name
    [columns] being the attribute's. *)
Definition format (self : t) (input : list (list Value)) : t * result str :=
  let input :=
    if truthy (headers self)
    then map (fun hc => fst hc :: snd hc) (combine (headers self) input)
    else input in
  let (cols, formatted_columns) := format_columns (columns self) input in
  (mk (headers self) cols,
   formatted_columns <- formatted_columns ;;
   rows <- zip_star_strict formatted_columns ;;
   Ok (join [newline] (map (@concat ascii) rows))).

Definition format_rows (self : t) (rows : list (list Value)) : t * result str :=
  format self (zip_star rows).

(** *** Vocabulary of the statements *)

(** The columns [format] hands to the columns of the table: with headers,
    every header before the values it is paired with. *)
Definition contents (self : t) (input : list (list Value)) : list (list Value) :=
  if truthy (headers self)
  then map (fun hc => fst hc :: snd hc) (combine (headers self) input)
  else input.

(** All the columns given hold as many values. *)
Definition even_columns (input : list (list Value)) : Prop :=
  forall c1 c2, In c1 input -> In c2 input -> length c1 = length c2.
End WithHost.
End Table.

(** ** A host to run examples on

    Python's [str.format] on the templates the module builds and on [str] and
    non-negative [int] values, for the part of the mini-language the examples
    of the documentation and the tests use: fill, the alignments [<], [>] and
    [^], width, precision and the types [s] and [d].  Outside that part the
    result is [None].  The general theorems are about every [Host]; this one
    serves to evaluate the module on concrete calls. *)

Module Py.

Inductive value : Type :=
| Str (s : str)
| Int (n : nat).

Definition prepend {B : Type} (c : ascii) (r : option (str * B)) : option (str * B) :=
  match r with
  | Some (text, b) => Some (c :: text, b)
  | None => None
  end.

Definition prepend_all {B : Type} (s : str) (r : option (str * B))
  : option (str * B) :=
  match r with
  | Some (text, b) => Some (s ++ text, b)
  | None => None
  end.

(** The literal text up to the first replacement field or the end: [{{] and
    [}}] stand for a brace, a single [}] is an error.  With the text comes the
    input after the [{] that opens the field, if there is one. *)
Fixpoint literal (s : str) : option (str * option str) :=
  match s with
  | [] => Some ([], None)
  | "{"%char :: "{"%char :: s' => prepend "{"%char (literal s')
  | "{"%char :: s' => Some ([], Some s')
  | "}"%char :: "}"%char :: s' => prepend "}"%char (literal s')
  | "}"%char :: _ => None
  | c :: s' => prepend c (literal s')
  end.

(** The format spec up to the [}] that closes the field; a nested field is
    outside the part modelled. *)
Fixpoint until_close (s : str) : option (str * str) :=
  match s with
  | [] => None
  | "}"%char :: s' => Some ([], s')
  | "{"%char :: _ => None
  | c :: s' => prepend c (until_close s')
  end.

(** A template with one field, [{}] or [{:spec}]: the text before it, the
    spec, the text after it. *)
Definition parse_template (template : str) : option (str * str * str) :=
  match literal template with
  | Some (before, Some field) =>
      let spec_rest :=
        match field with
        | ":"%char :: body => until_close body
        | "}"%char :: rest => Some ([], rest)
        | _ => None
        end in
      match spec_rest with
      | Some (spec, rest) =>
          match literal rest with
          | Some (after, None) => Some (before, spec, after)
          | _ => None
          end
      | None => None
      end
  | _ => None
  end.

Definition nat_of_digits (digits : str) : nat :=
  match NilZero.uint_of_string (string_of_list_ascii digits) with
  | Some u => Nat.of_uint u
  | None => 0
  end.

Definition pad (fill align : ascii) (width : nat) (text : str) : str :=
  let n := width - length text in
  if (align =? "<")%char then text ++ repeat fill n
  else if (align =? ">")%char then repeat fill n ++ text
  else repeat fill (n / 2) ++ text ++ repeat fill (n - n / 2).

Definition format_value (spec : str) (v : value) : option str :=
  match Format.__init__ spec with
  | Err _ => None
  | Ok f =>
      let unsupported :=
        truthy (Format.sign f) || truthy (Format.z f) || truthy (Format.alt f)
        || truthy (Format.zero f) || truthy (Format.grouping_option f)
        || char_in (Format.align f) "="%char in
      let fill := hd " "%char (Format.fill f) in
      let width := nat_of_digits (Format.width f) in
      if unsupported then None
      else
        match v with
        | Str s =>
            if truthy (Format.type f) && negb (char_in (Format.type f) "s"%char)
            then None
            else
              let text :=
                if truthy (Format.precision f)
                then firstn (nat_of_digits (Format.precision f)) s
                else s in
              Some (pad fill (hd "<"%char (Format.align f)) width text)
        | Int n =>
            if truthy (Format.precision f)
               || (truthy (Format.type f) && negb (char_in (Format.type f) "d"%char))
            then None
            else Some (pad fill (hd ">"%char (Format.align f)) width (str_of_nat n))
        end
  end.

Definition format (template : str) (v : value) : option str :=
  match parse_template template with
  | Some (before, spec, after) =>
      match format_value spec v with
      | Some text => Some (before ++ text ++ after)
      | None => None
      end
  | None => None
  end.

#[export] Instance host : Host := {|
  Value := value;
  empty_string := Str [];
  str_format := format
|}.

End Py.

(** * Properties *)

(** ** Columns *)

Section ColumnFacts.
Context `{Host}.

Lemma lines_length (template : str) (column : list Value) (rendered : list str) :
  Column.lines template column = Ok rendered -> length rendered = length column.
Proof.
  revert rendered; induction column as [|col column IH]; intros rendered; simpl.
  - intros [= <-]; reflexivity.
  - destruct (str_format template col); simpl; [|discriminate].
    destruct (Column.lines template column); simpl; [|discriminate].
    intros [= <-]; simpl; f_equal; apply IH; reflexivity.
Qed.

Lemma rows_loop_lines policy template hrule column output :
  Column.rows_loop policy template hrule column output =
  (rendered <- Column.lines template column ;;
   Ok (output ++ if HRule_eqb policy ALL
                 then flat_map (fun line => [line; hrule]) rendered
                 else rendered)).
Proof.
  revert output; induction column as [|col column IH]; intros output; simpl.
  - destruct (HRule_eqb policy ALL); rewrite app_nil_r; reflexivity.
  - destruct (str_format template col) as [line|]; simpl; [|reflexivity].
    rewrite IH.
    destruct (Column.lines template column) as [rest|]; simpl; [|reflexivity].
    destruct (HRule_eqb policy ALL); simpl;
      rewrite <- ?app_assoc; reflexivity.
Qed.

(** What [format] returns, by policy, once the measuring has succeeded. *)
Lemma format_layout (self : Column.t) (column : list Value) (w : str) :
  Column.measure self column = Ok w ->
  Column.format self column =
  (Column.resize self w,
   hrule <- Column.hrule_line (Column.resize self w) ;;
   rendered <- Column.lines (Column.__str__ (Column.resize self w)) column ;;
   Ok (Column.layout (Column.hrule self) hrule rendered)).
Proof.
  intros Hm; unfold Column.format; rewrite Hm; f_equal.
  destruct (Column.hrule_line (Column.resize self w)) as [hrule|]; simpl; [|reflexivity].
  rewrite rows_loop_lines.
  destruct (Column.lines _ column) as [rendered|] eqn:Hl; simpl; [|reflexivity].
  apply lines_length in Hl.
  destruct (Column.hrule self); simpl; f_equal; try reflexivity.
  - destruct rendered; reflexivity.
  - rewrite <- Hl.
    destruct rendered as [|header [|row rows]]; reflexivity.
Qed.

Lemma format_measure_err (self : Column.t) (column : list Value) (e : error) :
  Column.measure self column = Err e ->
  Column.format self column = (self, Err e).
Proof. intros Hm; unfold Column.format; rewrite Hm; reflexivity. Qed.

Lemma layout_length policy hrule rendered :
  length (Column.layout policy hrule rendered) =
  match policy with
  | NONE => length rendered
  | HEADER => length rendered + 1
  | FRAME => length rendered + 2
  | FRAME_HEADER => if 1 <? length rendered then length rendered + 3
                    else length rendered + 2
  | ALL => 2 * length rendered + 1
  end.
Proof.
  destruct policy; simpl.
  - reflexivity.
  - destruct rendered; simpl; lia.
  - rewrite length_app; simpl; lia.
  - destruct rendered as [|header [|row rows]]; simpl; try lia.
    rewrite length_app; simpl. lia.
  - f_equal. induction rendered; simpl; lia.
Qed.
Lemma str_of_nat_nonempty (n : nat) : str_of_nat n <> [].
Proof.
  unfold str_of_nat, NilZero.string_of_uint.
  destruct (Nat.to_uint n); simpl; discriminate.
Qed.

Lemma py_max_list_max (l : list nat) :
  l <> [] -> py_max l = Ok (list_max l).
Proof.
  destruct l as [|n ns]; [congruence|intros _]; simpl; f_equal.
  revert n; induction ns as [|m ns IH]; intros n; simpl.
  - lia.
  - rewrite IH; simpl; lia.
Qed.

Lemma content_lengths_length f column lens :
  Column.content_lengths f column = Ok lens -> length lens = length column.
Proof.
  revert lens; induction column as [|c column IH]; intros lens; simpl.
  - intros [= <-]; reflexivity.
  - destruct (Format.format f c); simpl; [|discriminate].
    destruct (Column.content_lengths f column); simpl; [|discriminate].
    intros [= <-]; simpl; f_equal; apply IH; reflexivity.
Qed.

(** [format] assigns [content_format.width] and nothing else. *)
Lemma format_frame (self : Column.t) (column : list Value) :
  let self' := fst (Column.format self column) in
  Column.width self' = Column.width self
  /\ Format.precision (Column.content_format self')
     = Format.precision (Column.content_format self)
  /\ Column.hrule self' = Column.hrule self
  /\ (self' = self \/ exists w, Column.measure self column = Ok w
                             /\ self' = Column.resize self w).
Proof.
  unfold Column.format.
  destruct (Column.measure self column) as [w|e] eqn:Hm; simpl.
  - repeat split; try reflexivity. right; exists w; split; reflexivity.
  - repeat split; try reflexivity. left; reflexivity.
Qed.

Lemma format_all_frame (calls : list (list Value)) (self : Column.t) :
  Column.width (Column.format_all self calls) = Column.width self
  /\ Format.precision (Column.content_format (Column.format_all self calls))
     = Format.precision (Column.content_format self).
Proof.
  revert self; induction calls as [|column calls IH]; intros self; simpl.
  - split; reflexivity.
  - destruct (IH (fst (Column.format self column))) as [Hw Hp].
    destruct (format_frame self column) as (Hw' & Hp' & _).
    unfold Column.format_all in *; simpl.
    rewrite Hw, Hp; split; assumption.
Qed.

Lemma measure_explicit (self : Column.t) (column : list Value) :
  Column.width self <> [] -> Column.measure self column = Ok (Column.width self).
Proof.
  unfold Column.measure; destruct (Column.width self); [congruence|reflexivity].
Qed.

Lemma init_fields (format : str) policy hrule_format (self : Column.t) :
  Column.__init__ format policy hrule_format = Ok self ->
  Format.precision (Column.content_format self)
  = Format.width (Column.content_format self)
  /\ Column.width self = Format.width (Column.content_format self)
  /\ Column.hrule self = policy.
Proof.
  unfold Column.__init__.
  destruct (Column.pattern_fullmatch format) as [groups|]; [|discriminate].
  destruct (Format.__init__ (Column.g_content_format groups)) as [f|]; simpl;
    [|discriminate].
  destruct hrule_format as [|l [|c [|r [|x rest]]]]; try discriminate.
  intros [= <-]; simpl; repeat split.
Qed.
End ColumnFacts.



(** C4: under [HEADER] the rule comes right after the first rendered line,
    also when that line is the only one; under [FRAME_HEADER] the rule after
    the header is there when there are two values or more, between the first
    and the second rendered line, and with one value the output is the
    opening rule, the line and the closing rule. *)
Theorem Column_format_header_rule `{Host} (self : Column.t) (column : list Value)
        (w hrule : str) (rendered : list str) :
  Column.measure self column = Ok w ->
  Column.hrule_line (Column.resize self w) = Ok hrule ->
  Column.lines (Column.__str__ (Column.resize self w)) column = Ok rendered ->
  length rendered = length column
  /\ (Column.hrule self = HEADER ->
      forall header rows, rendered = header :: rows ->
        snd (Column.format self column) = Ok (header :: hrule :: rows))
  /\ (Column.hrule self = FRAME_HEADER ->
      forall header row rows, rendered = header :: row :: rows ->
        snd (Column.format self column)
        = Ok (hrule :: header :: hrule :: row :: rows ++ [hrule]))
  /\ (Column.hrule self = FRAME_HEADER ->
      forall line, rendered = [line] ->
        snd (Column.format self column) = Ok [hrule; line; hrule]).
Proof.
  intros Hm Hh Hl.
  rewrite (format_layout _ _ _ Hm), Hh, Hl; simpl.
  split; [exact (lines_length _ _ _ Hl)|].
  repeat split; intros -> **; subst rendered; reflexivity.
Qed.

Lemma Column_format_header_rule_witness :
  exists self,
    Column.__init__ "|{:^5}|" FRAME_HEADER "+-+" = Ok self
    /\ snd (Column.format (H:=Py.host) self [Py.Str "name"])
       = Ok ["+-----+" : str; "|name |" : str; "+-----+" : str].
Proof.
  eexists; split; [vm_compute; reflexivity|].
  refine (proj2 (proj2 (proj2
    (Column_format_header_rule (H:=Py.host) _ [Py.Str "name"] "5" "+-----+"
       ["|name |" : str] _ _ _))) _ _ _);
    vm_compute; reflexivity.
Defined.

(** C10: on a column built without a width, [format] of no values raises,
    the [ValueError] of [max] on an empty iterable, and returns nothing; a call
    that returns was given at least one value. *)
Theorem Column_format_empty_fails `{Host} (self : Column.t) :
  Column.width self = [] ->
  Column.format self [] = (self, Err EmptyMax)
  /\ (forall column self' output,
        Column.format self column = (self', Ok output) -> column <> []).
Proof.
  intros Hw.
  assert (He : Column.format self [] = (self, Err EmptyMax)).
  { apply format_measure_err. unfold Column.measure; rewrite Hw; reflexivity. }
  split; [exact He|].
  intros column self' output Hf ->. rewrite He in Hf; discriminate.
Qed.

Lemma Column_format_empty_fails_witness :
  exists self,
    Column.__init__ "| {:>} |" FRAME "+-+" = Ok self
    /\ Column.width self = []
    /\ Column.format (H:=Py.host) self [] = (self, Err EmptyMax).
Proof.
  eexists; split; [vm_compute; reflexivity|].
  split; [reflexivity|].
  refine (proj1 (Column_format_empty_fails (H:=Py.host) _ _)); reflexivity.
Defined.

(** C5, as the code has it: construction makes the precision of the content
    format equal to its width; [format] never assigns the precision; on a
    column built with a width no call changes the width either, so the two
    stay equal; on a column built without one the precision stays unset, and
    after a call that returns the width is set. *)
Theorem Column_precision_width `{Host} (format : str) (policy : HRule)
        (hrule_format : str) (self : Column.t) :
  Column.__init__ format policy hrule_format = Ok self ->
  Format.precision (Column.content_format self)
  = Format.width (Column.content_format self)
  /\ (forall calls,
        Format.precision (Column.content_format (Column.format_all self calls))
        = Format.precision (Column.content_format self))
  /\ (Column.width self <> [] ->
      forall calls,
        Format.precision (Column.content_format (Column.format_all self calls))
        = Format.width (Column.content_format (Column.format_all self calls)))
  /\ (Column.width self = [] ->
      forall calls column self' output,
        Column.format (Column.format_all self calls) column = (self', Ok output) ->
        Format.precision (Column.content_format self') = []
        /\ Format.width (Column.content_format self') <> []).
Proof.
  intros Hi. destruct (init_fields _ _ _ _ Hi) as (Hp & Hw & _).
  split; [exact Hp|].
  split; [intros calls; apply format_all_frame|].
  split.
  - intros Hne calls.
    destruct (format_all_frame calls self) as [Hw' Hp']. rewrite Hp', Hp, <- Hw.
    clear Hp'. revert self Hi Hp Hw Hne Hw'.
    induction calls as [|column calls IH] using rev_ind; intros; [exact Hw|].
    unfold Column.format_all in *. rewrite fold_left_app in *; simpl in *.
    set (prev := fold_left _ calls self) in *.
    assert (Hprev : Column.width prev = Column.width self).
    { apply format_all_frame. }
    assert (Hm : Column.measure prev column = Ok (Column.width self)).
    { rewrite <- Hprev; apply measure_explicit; rewrite Hprev; exact Hne. }
    rewrite (format_layout _ _ _ Hm); reflexivity.
  - intros He calls column self' output Hf.
    destruct (format_all_frame calls self) as [Hw' Hp'].
    set (prev := Column.format_all self calls) in *.
    destruct (Column.measure prev column) as [w|e] eqn:Hm.
    + rewrite (format_layout _ _ _ Hm) in Hf. injection Hf as <- _; simpl.
      split; [rewrite Hp', Hp, <- Hw; exact He|].
      unfold Column.measure in Hm. rewrite Hw', He in Hm; simpl in Hm.
      destruct (Column.content_lengths _ column); simpl in Hm; [|discriminate].
      destruct (py_max a); simpl in Hm; [|discriminate].
      injection Hm as <-. apply str_of_nat_nonempty.
    + rewrite (format_measure_err _ _ _ Hm) in Hf; discriminate.
Qed.

Lemma Column_precision_width_witness :
  exists self,
    Column.__init__ "|{:^5}|" FRAME_HEADER "+-+" = Ok self
    /\ Format.precision (Column.content_format self) = "5"
    /\ Format.precision (Column.content_format self)
       = Format.width (Column.content_format self).
Proof.
  eexists; split; [vm_compute; reflexivity|].
  split; [reflexivity|].
  refine (proj1 (Column_precision_width (H:=Py.host) "|{:^5}|" FRAME_HEADER "+-+" _ _));
    vm_compute; reflexivity.
Defined.

(** C5 as stated fails: after a call on a column built without a width the
    width is ["2"] and the precision is still unset. *)
Lemma Column_precision_width_diverge :
  exists self self' output,
    Column.__init__ "{}" NONE "+-+" = Ok self
    /\ Column.format (H:=Py.host) self [Py.Str "ab"] = (self', Ok output)
    /\ Format.width (Column.content_format self') = "2"
    /\ Format.precision (Column.content_format self') = ""
    /\ Format.precision (Column.content_format self')
       <> Format.width (Column.content_format self').
Proof.
  eexists; eexists; eexists.
  split; [vm_compute; reflexivity|].
  split; [vm_compute; reflexivity|].
  split; [reflexivity|]. split; [reflexivity|]. discriminate.
Qed.

(** X19: on a column built without a width, the first call of [format]
    on values the host renders leaves as width of the content format the
    decimal text of the greatest length of a value rendered under the content
    format with width and precision unset; the precision is not assigned and
    stays unset. *)
Theorem Column_first_format_width `{Host} (format : str) (policy : HRule)
        (hrule_format : str) (self : Column.t) (column : list Value)
        (lens : list nat) :
  Column.__init__ format policy hrule_format = Ok self ->
  Column.width self = [] ->
  column <> [] ->
  Column.content_lengths
    (Format.set_precision (Format.set_width (Column.content_format self) []) [])
    column = Ok lens ->
  Format.width (Column.content_format (fst (Column.format self column)))
  = str_of_nat (list_max lens)
  /\ Format.precision (Column.content_format (fst (Column.format self column))) = []
  /\ length lens = length column.
Proof.
  intros Hi Hw Hne Hl.
  destruct (init_fields _ _ _ _ Hi) as (Hp & Hw' & _).
  assert (Hf : Format.set_precision
                 (Format.set_width (Column.content_format self) []) []
               = Column.content_format self).
  { rewrite Hw in Hw'. rewrite <- Hw' in Hp.
    destruct (Column.content_format self); simpl in *; subst; reflexivity. }
  rewrite Hf in Hl.
  assert (Hlen := content_lengths_length _ _ _ Hl).
  assert (Hm : Column.measure self column = Ok (str_of_nat (list_max lens))).
  { unfold Column.measure. rewrite Hw, Hl; simpl.
    rewrite py_max_list_max; [reflexivity|].
    intros ->. destruct column; [congruence|discriminate]. }
  rewrite (format_layout _ _ _ Hm); simpl.
  repeat split; [|exact Hlen].
  rewrite Hp, <- Hw'; exact Hw.
Qed.

Lemma Column_first_format_width_witness :
  exists self,
    Column.__init__ "| {:>} |" FRAME "+-+" = Ok self
    /\ Format.width
         (Column.content_format
            (fst (Column.format (H:=Py.host) self [Py.Str "ab"; Py.Str "abcd"; Py.Int 7])))
       = "4".
Proof.
  eexists; split; [vm_compute; reflexivity|].
  refine (proj1 (Column_first_format_width (H:=Py.host) "| {:>} |" FRAME "+-+" _
                   [Py.Str "ab"; Py.Str "abcd"; Py.Int 7] [2; 4; 1] _ _ _ _));
    try (vm_compute; reflexivity); discriminate.
Defined.

(** C1 on the code, a column without a width used twice: [self.width]
    stays empty, so the second call measures again, but it renders the values
    under the content format as the first call left it, width 5 included.
    After ["hello"], the value ["a"] is measured as 5 long: the second call
    leaves the width at 5 and returns ["a    "], where the length of ["a"]
    rendered with width and precision unset, the content maximum width of the
    docstring, is 1. *)
Lemma Column_reused_keeps_width :
  exists self self1 output1 self2 output2,
    Column.__init__ "{}" NONE "+-+" = Ok self
    /\ Column.width self = []
    /\ Column.format (H:=Py.host) self [Py.Str "hello"] = (self1, Ok output1)
    /\ Column.format (H:=Py.host) self1 [Py.Str "a"] = (self2, Ok output2)
    /\ Column.content_lengths (H:=Py.host)
         (Format.set_precision (Format.set_width (Column.content_format self2) []) [])
         [Py.Str "a"] = Ok [1]
    /\ Format.width (Column.content_format self2) = "5"
    /\ Format.width (Column.content_format self2) <> str_of_nat (list_max [1])
    /\ output2 = ["a    " : str].
Proof.
  do 5 eexists.
  split; [vm_compute; reflexivity|].
  split; [reflexivity|].
  split; [vm_compute; reflexivity|].
  split; [vm_compute; reflexivity|].
  split; [vm_compute; reflexivity|].
  split; [reflexivity|].
  split; [vm_compute; discriminate|].
  vm_compute; reflexivity.
Qed.

(** ** Tables *)

(** Evaluates the left-hand side of an equation and closes it.  The type
    of a table mentions the host, whose normal form as a function is of no
    use: only the side is evaluated. *)
Ltac evaluate :=
  match goal with
  | |- ?lhs = _ => let v := eval vm_compute in lhs in change lhs with v
  end; reflexivity.

Section ZipFacts.
Context {A : Type}.

Lemma column_of_tl (j : nat) (rows : list (list A)) :
  column_of (S j) rows = column_of j (map (@tl A) rows).
Proof.
  induction rows as [|row rows IH]; simpl; [reflexivity|].
  rewrite IH. destruct row; simpl; [destruct j|]; reflexivity.
Qed.

Lemma next_all_uniform (n : nat) (rows : list (list A)) :
  Forall (fun row => length row = S n) rows ->
  next_all rows = Some (column_of 0 rows, map (@tl A) rows).
Proof.
  induction 1 as [|row rows Hrow _ IH]; simpl; [reflexivity|].
  destruct row as [|x row]; [discriminate|]. rewrite IH; reflexivity.
Qed.

Lemma transpose_succ (n : nat) (rows : list (list A)) :
  transpose (S n) rows = column_of 0 rows :: transpose n (map (@tl A) rows).
Proof.
  unfold transpose. simpl. f_equal.
  rewrite <- seq_shift, map_map.
  apply map_ext; intros j; apply column_of_tl.
Qed.

Lemma zip_rounds_transpose (n : nat) (rows : list (list A)) :
  Forall (fun row => length row = n) rows ->
  zip_rounds n rows = transpose n rows.
Proof.
  revert rows; induction n as [|n IH]; intros rows Hrows; [reflexivity|].
  simpl. rewrite (next_all_uniform n rows Hrows), transpose_succ. f_equal.
  apply IH. clear IH.
  induction Hrows as [|row rows Hrow _ IH]; simpl; constructor; [|exact IH].
  destruct row; simpl in *; congruence.
Qed.

(** On at least one row, all of them [n] long, [zip] of the unpacked rows is
    the column-major form. *)
Lemma zip_star_transpose (n : nat) (rows : list (list A)) :
  rows <> [] ->
  Forall (fun row => length row = n) rows ->
  zip_star rows = transpose n rows.
Proof.
  intros Hne Hrows. destruct rows as [|row rows]; [congruence|].
  unfold zip_star. inversion Hrows; subst.
  apply zip_rounds_transpose; assumption.
Qed.
End ZipFacts.

(** C7, as the code has it: on at least one row, every row with one value
    per column of the table, [format_rows] returns what [format] returns on
    the column-major form of the rows, and leaves the table as [format]
    leaves it. *)
Theorem Table_format_rows_transpose `{Host} (self : Table.t)
        (rows : list (list Value)) :
  rows <> [] ->
  Forall (fun row => length row = length (Table.columns self)) rows ->
  Table.format_rows self rows
  = Table.format self (transpose (length (Table.columns self)) rows).
Proof.
  intros Hne Hrows. unfold Table.format_rows.
  rewrite (zip_star_transpose _ rows Hne Hrows). reflexivity.
Qed.

Lemma Table_format_rows_transpose_witness :
  exists table table',
    Table.__init__ (H:=Py.host) ["|{:^5}|" : str; "{:>} |" : str]
                   (Some [Py.Str "name"; Py.Str "n"]) FRAME_HEADER "+-+" = Ok table
    /\ transpose 2 [[Py.Str "ab"; Py.Int 1]; [Py.Str "cde"; Py.Int 22]]
       = [[Py.Str "ab"; Py.Str "cde"]; [Py.Int 1; Py.Int 22]]
    /\ Table.format table [[Py.Str "ab"; Py.Str "cde"]; [Py.Int 1; Py.Int 22]]
       = (table', Ok (join [newline]
            ["+-----+---+" : str; "|name | n |" : str; "+-----+---+" : str;
             "| ab  | 1 |" : str; "| cde |22 |" : str; "+-----+---+" : str]))
    /\ Table.format_rows table [[Py.Str "ab"; Py.Int 1]; [Py.Str "cde"; Py.Int 22]]
       = Table.format table (transpose 2 [[Py.Str "ab"; Py.Int 1]; [Py.Str "cde"; Py.Int 22]]).
Proof.
  eexists; eexists.
  split; [evaluate|].
  split; [reflexivity|].
  split; [evaluate|].
  refine (Table_format_rows_transpose (H:=Py.host) _
            [[Py.Str "ab"; Py.Int 1]; [Py.Str "cde"; Py.Int 22]] _ _).
  - discriminate.
  - repeat constructor.
Defined.

(** C7 as stated fails on no rows: [format_rows] formats no column and
    returns the empty text, where [format] on the column-major form, one
    column of no values, returns the two frame rules. *)
Lemma Table_format_rows_no_rows :
  exists table table1 table2,
    Table.__init__ (H:=Py.host) ["|{:3}|" : str] None FRAME_HEADER "+-+" = Ok table
    /\ Forall (fun row => length row = length (Table.columns table))
              (@nil (list Py.value))
    /\ transpose (length (Table.columns table)) (@nil (list Py.value)) = [[]]
    /\ Table.format_rows table [] = (table1, Ok [])
    /\ Table.format table [[]]
       = (table2, Ok (join [newline] ["+---+" : str; "+---+" : str]))
    /\ snd (Table.format_rows table [])
       <> snd (Table.format table
                 (transpose (length (Table.columns table)) [])).
Proof.
  do 3 eexists.
  split; [evaluate|].
  split; [constructor|].
  split; [reflexivity|].
  split; [evaluate|].
  split; [evaluate|].
  vm_compute; discriminate.
Qed.

(** C9, as the code has it: construction raises when a non-empty list of
    headers is given whose length is not the number of column formats, as
    with three formats and two headers; an empty list of headers is no
    headers, whatever the number of formats. *)
Theorem Table_init_headers_mismatch `{Host} (column_formats : list str)
        (headers : list Value) (hrule : HRule) (hrule_format : str) :
  headers <> [] ->
  length column_formats <> length headers ->
  Table.__init__ column_formats (Some headers) hrule hrule_format
  = Err HeadersLengthMismatch
  /\ (forall f1 f2 f3 h1 h2,
        Table.__init__ [f1; f2; f3] (Some [h1; h2]) hrule hrule_format
        = Err HeadersLengthMismatch)
  /\ Table.__init__ column_formats (Some []) hrule hrule_format
     = Table.__init__ column_formats None hrule hrule_format.
Proof.
  intros Hne Hlen. split; [|split; reflexivity].
  unfold Table.__init__.
  destruct headers as [|h headers]; [congruence|]. simpl truthy.
  apply Nat.eqb_neq in Hlen. rewrite Hlen. reflexivity.
Qed.

Lemma Table_init_headers_mismatch_witness :
  Table.__init__ (H:=Py.host) ["|{:^10}|" : str; "  {:^7} |" : str; " {:^} |" : str]
                 (Some [Py.Str "Header1"; Py.Str "Header2"]) FRAME_HEADER "+-+"
  = Err HeadersLengthMismatch.
Proof.
  refine (proj1 (Table_init_headers_mismatch (H:=Py.host) _ _ _ _ _ _));
    simpl; discriminate.
Defined.

(** C9 as stated fails on an empty list of headers: it is given, its
    length is not the number of formats, and the table is built. *)
Lemma Table_init_empty_headers :
  exists table,
    Table.__init__ (H:=Py.host) ["{}" : str] (Some []) FRAME_HEADER "+-+" = Ok table
    /\ Table.headers table = []
    /\ length (Table.columns table) = 1
    /\ length ["{}" : str] <> length (@nil Py.value).
Proof.
  eexists. split; [evaluate|].
  split; [reflexivity|]. split; [reflexivity|]. discriminate.
Qed.

(** C6 on the code: rows of three and of two values for a table of three
    columns.  [zip] stops at the shorter row, the third value of the first row
    is dropped, and [format_rows] returns the two columns left. *)
Lemma Table_format_rows_ragged :
  exists table table',
    Table.__init__ (H:=Py.host) ["{}" : str; "{}" : str; "{}" : str] None NONE "+-+"
    = Ok table
    /\ Table.format_rows table
         [[Py.Str "a"; Py.Str "b"; Py.Str "c"]; [Py.Str "d"; Py.Str "e"]]
       = (table', Ok (join [newline] ["ab" : str; "de" : str])).
Proof.
  eexists; eexists.
  split; [evaluate|].
  evaluate.
Qed.

(** ** Format specifications *)

Section MatcherFacts.
Context {R : Type}.
Implicit Types (k : @Re.cont R) (P : ascii -> bool) (s : str).

Lemma opt_total (m : @Re.matcher R) s k : Re.total k -> Re.opt m s k <> None.
Proof.
  intros Hk. unfold Re.opt. destruct (m s k); [discriminate|apply Hk].
Qed.

Lemma opt_chr_greedy P s k :
  Re.total k ->
  Re.opt (Re.chr P) s k = k (fst (Format.take1 P s)) (snd (Format.take1 P s)).
Proof.
  intros Hk. unfold Re.opt, Re.chr, Format.take1.
  destruct s as [|c s']; [reflexivity|].
  destruct (P c); [|reflexivity]. simpl.
  destruct (k [c] s') eqn:E; [reflexivity|]. exfalso; exact (Hk _ _ E).
Qed.

Lemma star_greedy P s k :
  Re.total k ->
  Re.star P s k = k (fst (Format.span P s)) (snd (Format.span P s)).
Proof.
  revert k; induction s as [|c s' IH]; intros k Hk; simpl; [reflexivity|].
  destruct (P c); [|reflexivity]. simpl.
  rewrite IH; [|intros cap rest; apply Hk].
  destruct (k _ _) eqn:E; [reflexivity|]. exfalso; exact (Hk _ _ E).
Qed.

Lemma opt_plus_greedy P s k :
  Re.total k ->
  Re.opt (Re.plus P) s k = k (fst (Format.span P s)) (snd (Format.span P s)).
Proof.
  intros Hk. unfold Re.opt, Re.plus.
  destruct s as [|c s']; [reflexivity|]. simpl.
  destruct (P c); [|reflexivity]. simpl.
  rewrite star_greedy; [|intros cap rest; apply Hk].
  destruct (k _ _) eqn:E; [reflexivity|]. exfalso; exact (Hk _ _ E).
Qed.

Lemma opt_precision_greedy s k :
  Re.total k ->
  Re.opt (fun s k' =>
            Re.chr (Ascii.eqb "."%char) s (fun _ s => Re.plus is_digit s k')) s k
  = k (fst (Format.take_precision s)) (snd (Format.take_precision s)).
Proof.
  intros Hk. unfold Re.opt, Re.chr, Re.plus, Format.take_precision.
  destruct s as [|c [|d s']]; [reflexivity| |].
  - rewrite Ascii.eqb_sym. destruct (c =? ".")%char; reflexivity.
  - rewrite Ascii.eqb_sym. destruct (c =? ".")%char; simpl; [|reflexivity].
    destruct (is_digit d); [|reflexivity].
    rewrite star_greedy; [|intros cap rest; apply Hk].
    destruct (k _ _) eqn:E; [reflexivity|]. exfalso; exact (Hk _ _ E).
Qed.

Ltac tail_total Hk :=
  repeat (intros ? ?; apply opt_total); intros ? ?; apply Hk.

(** The pattern, backtracking and all, on a continuation that never fails:
    the greedy reading. *)
Lemma pattern_greedy (s : str) (k : Format.t -> str -> option R) :
  (forall groups rest, k groups rest <> None) ->
  Format.pattern s k = k (fst (Format.parse s)) (snd (Format.parse s)).
Proof.
  intros Hk. cbv beta delta [Format.pattern].
  match goal with
  | |- (let tail := ?t in _) = _ => set (read_tail := t)
  end.
  assert (Htail : forall fill align s,
             read_tail fill align s
             = k (fst (Format.parse_tail fill align s))
                 (snd (Format.parse_tail fill align s))).
  { intros fill align s0. unfold read_tail.
    do 4 rewrite opt_chr_greedy by tail_total Hk.
    rewrite opt_plus_greedy by tail_total Hk.
    rewrite opt_chr_greedy by tail_total Hk.
    rewrite opt_precision_greedy by tail_total Hk.
    rewrite opt_chr_greedy by tail_total Hk.
    reflexivity. }
  clearbody read_tail. cbv zeta.
  change (k (fst (Format.parse s)) (snd (Format.parse s)))
    with ((fun fill align s0 =>
             k (fst (Format.parse_tail fill align s0))
               (snd (Format.parse_tail fill align s0)))
            (fst (fst (Format.take_fill_align s)))
            (snd (fst (Format.take_fill_align s)))
            (snd (Format.take_fill_align s))).
  set (read := fun fill align s0 => k _ _) in *.
  assert (Hread : forall fill align s0, read fill align s0 <> None)
    by (intros; apply Hk).
  change (forall fill align s0, read_tail fill align s0 = read fill align s0)
    in Htail.
  clearbody read.
  unfold Format.take_fill_align, Re.opt, Re.chr.
  destruct s as [|c [|a s']]; rewrite ?Htail.
  - reflexivity.
  - destruct (dot c), (is_align c); cbn [fst snd andb]; rewrite ?Htail;
      try reflexivity;
      destruct (read _ _ _) eqn:E; try reflexivity; exfalso; exact (Hread _ _ _ E).
  - destruct (dot c), (is_align a), (is_align c); cbn [fst snd andb];
      rewrite ?Htail; try reflexivity;
      destruct (read _ _ _) eqn:E; try reflexivity; exfalso; exact (Hread _ _ _ E).
Qed.
End MatcherFacts.

Lemma pattern_match_parse (s : str) :
  Format.pattern_match s = Some (Format.parse s).
Proof.
  unfold Format.pattern_match. rewrite pattern_greedy; [|discriminate].
  destruct (Format.parse s); reflexivity.
Qed.

Lemma init_parse (s : str) :
  Format.__init__ s
  = if truthy (snd (Format.parse s)) then Err InvalidFormatString
    else Ok (fst (Format.parse s)).
Proof.
  unfold Format.__init__. rewrite pattern_match_parse.
  destruct (Format.parse s); reflexivity.
Qed.

(** *** What the greedy reading takes *)

Lemma take1_app (P : ascii -> bool) (s : str) :
  fst (Format.take1 P s) ++ snd (Format.take1 P s) = s.
Proof.
  destruct s as [|c s']; [reflexivity|]. simpl. destruct (P c); reflexivity.
Qed.

Lemma span_app (P : ascii -> bool) (s : str) :
  fst (Format.span P s) ++ snd (Format.span P s) = s.
Proof.
  induction s as [|c s' IH]; [reflexivity|]. simpl.
  destruct (P c); simpl; [rewrite IH|]; reflexivity.
Qed.

Lemma span_Forall (P : ascii -> bool) (s : str) :
  Forall (fun c => P c = true) (fst (Format.span P s)).
Proof.
  induction s as [|c s' IH]; simpl; [constructor|].
  destruct (P c) eqn:E; simpl; [constructor; assumption|constructor].
Qed.

Lemma take1_optional (P : ascii -> bool) (s : str) :
  Format.optional P (fst (Format.take1 P s)).
Proof.
  destruct s as [|c s']; simpl; [left; reflexivity|].
  destruct (P c) eqn:E; simpl; [right; exists c; auto|left; reflexivity].
Qed.

Lemma take_precision_app (s : str) :
  (if truthy (fst (Format.take_precision s))
   then "." ++ fst (Format.take_precision s)
   else fst (Format.take_precision s))
  ++ snd (Format.take_precision s) = s.
Proof.
  unfold Format.take_precision.
  destruct s as [|c [|d s']]; try reflexivity.
  destruct (c =? ".")%char eqn:E; simpl; [|reflexivity].
  apply Ascii.eqb_eq in E; subst c.
  destruct (is_digit d); simpl; [|reflexivity].
  rewrite span_app; reflexivity.
Qed.

Lemma take_precision_shape (s : str) :
  fst (Format.take_precision s) = []
  \/ (fst (Format.take_precision s) <> []
      /\ Format.digits (fst (Format.take_precision s))).
Proof.
  unfold Format.take_precision.
  destruct s as [|c [|d s']]; try (left; reflexivity).
  destruct ((c =? ".")%char && is_digit d) eqn:E; [|left; reflexivity].
  right. apply andb_true_iff in E as [_ Hd]. simpl.
  split; [discriminate|]. constructor; [exact Hd|apply span_Forall].
Qed.

Lemma take_fill_align_app (s : str) :
  fst (fst (Format.take_fill_align s)) ++ snd (fst (Format.take_fill_align s))
  ++ snd (Format.take_fill_align s) = s.
Proof.
  unfold Format.take_fill_align.
  destruct s as [|c [|a s']]; [reflexivity| |].
  - destruct (is_align c); reflexivity.
  - destruct (dot c && is_align a); [reflexivity|].
    destruct (is_align c); reflexivity.
Qed.

Lemma take_fill_align_shape (s : str) :
  (fst (fst (Format.take_fill_align s)) = []
   /\ Format.optional is_align (snd (fst (Format.take_fill_align s))))
  \/ (exists c a,
        fst (fst (Format.take_fill_align s)) = [c] /\ dot c = true
        /\ snd (fst (Format.take_fill_align s)) = [a] /\ is_align a = true).
Proof.
  unfold Format.take_fill_align.
  destruct s as [|c [|a s']].
  - left; split; [|left]; reflexivity.
  - destruct (is_align c) eqn:E; left;
      (split; [reflexivity|]); [right; exists c; auto|left; reflexivity].
  - destruct (dot c && is_align a) eqn:E.
    + apply andb_true_iff in E as [Hc Ha]. right; exists c, a; auto.
    + destruct (is_align c) eqn:E'; left;
        (split; [reflexivity|]); [right; exists c; auto|left; reflexivity].
Qed.

(** The groups of the greedy reading, written one after the other as
    [__str__] writes them, and the text left: the input. *)
Lemma parse_text (s : str) :
  Format.spec_text (fst (Format.parse s)) ++ snd (Format.parse s) = s.
Proof.
  unfold Format.parse, Format.parse_tail, Format.spec_text. cbv zeta.
  cbn [fst snd Format.fill Format.align Format.sign Format.z Format.alt Format.zero
       Format.width Format.grouping_option Format.precision Format.type].
  rewrite <- !app_assoc.
  rewrite take1_app, take_precision_app, take1_app, span_app, !take1_app.
  apply take_fill_align_app.
Qed.

Lemma parse_grammar (s : str) :
  snd (Format.parse s) = [] -> Format.pattern_grammar s.
Proof.
  intros Hrest. pose proof (parse_text s) as Htext.
  rewrite Hrest, app_nil_r in Htext.
  unfold Format.parse, Format.parse_tail, Format.spec_text in Htext.
  cbv zeta in Htext.
  cbn [fst snd Format.fill Format.align Format.sign Format.z Format.alt Format.zero
       Format.width Format.grouping_option Format.precision Format.type] in Htext.
  set (fa := Format.take_fill_align s) in *.
  set (sign := Format.take1 is_sign (snd fa)) in *.
  set (z := Format.take1 (Ascii.eqb "z"%char) (snd sign)) in *.
  set (alt := Format.take1 (Ascii.eqb "#"%char) (snd z)) in *.
  set (zero := Format.take1 (Ascii.eqb "0"%char) (snd alt)) in *.
  set (width := Format.span is_digit (snd zero)) in *.
  set (grouping := Format.take1 is_grouping (snd width)) in *.
  set (precision := Format.take_precision (snd grouping)) in *.
  set (type := Format.take1 is_type (snd precision)) in *.
  exists (fst (fst fa)), (snd (fst fa)), (fst sign), (fst z), (fst alt),
         (fst zero), (fst width), (fst grouping),
         (if truthy (fst precision) then "." ++ fst precision else fst precision),
         (fst type).
  split; [symmetry; exact Htext|].
  split; [apply take_fill_align_shape|].
  repeat (split; [apply take1_optional|]).
  split; [apply span_Forall|].
  split; [apply take1_optional|].
  split; [|apply take1_optional].
  destruct (take_precision_shape (snd grouping)) as [E|[Hne Hd]].
  - left. unfold precision. rewrite E; reflexivity.
  - right. exists (fst precision). unfold precision.
    destruct (fst (Format.take_precision (snd grouping))); [congruence|].
    simpl. split; [reflexivity|]. split; [discriminate|exact Hd].
Qed.

(** *** Classes of characters *)

#[local] Arguments Ascii.eqb : simpl never.

Lemma classes (c : ascii) :
  (is_sign c = true -> Format.from_z c = false)
  /\ (Ascii.eqb "z" c = true -> Format.from_alt c = false)
  /\ (Ascii.eqb "#" c = true -> Format.from_width c = false)
  /\ (is_digit c = true -> Format.from_grouping c = false)
  /\ (is_grouping c = true -> Format.from_precision c = false)
  /\ (Ascii.eqb "." c = true -> is_type c = false)
  /\ (is_digit c = true -> is_type c = false)
  /\ (Ascii.eqb "0" c = true -> is_digit c = true)
  /\ (Format.from_sign c = true -> is_align c = false)
  /\ (Format.from_sign c = true -> dot c = true)
  /\ (is_align c = true -> dot c = true).
Proof.
  destruct c as [[] [] [] [] [] [] [] []]; vm_compute;
    repeat split; intros; (reflexivity || discriminate).
Qed.

Lemma Forall_app_intro {A : Type} (P : A -> Prop) (l1 l2 : list A) :
  Forall P l1 -> Forall P l2 -> Forall P (l1 ++ l2).
Proof. intros H1 H2. apply (proj2 (Forall_app P l1 l2)). split; assumption. Qed.

Lemma first_in_app (F : ascii -> bool) (a b : str) :
  Format.first_in F a -> Format.first_in F b -> Format.first_in F (a ++ b).
Proof. destruct a; simpl; auto. Qed.

Lemma optional_first (P F : ascii -> bool) (x : str) :
  (forall c, P c = true -> F c = true) ->
  Format.optional P x -> Format.first_in F x.
Proof.
  intros HPF [->|(c & -> & Hc)]; simpl; auto.
Qed.

Lemma optional_Forall (P F : ascii -> bool) (x : str) :
  (forall c, P c = true -> F c = true) ->
  Format.optional P x -> Forall (fun c => F c = true) x.
Proof.
  intros HPF [->|(c & -> & Hc)]; repeat constructor; auto.
Qed.

Lemma digits_first (F : ascii -> bool) (x : str) :
  (forall c, is_digit c = true -> F c = true) ->
  Format.digits x -> Format.first_in F x.
Proof.
  intros HF Hx. destruct Hx; simpl; auto.
Qed.

Ltac class_incl :=
  let c := fresh "c" in
  let Hc := fresh "Hc" in
  intros c Hc;
  unfold Format.from_sign, Format.from_z, Format.from_alt, Format.from_width,
    Format.from_grouping, Format.from_precision;
  rewrite ?Hc, ?(proj1 (proj2 (proj2 (proj2 (proj2 (proj2 (proj2 (proj2 (classes c)))))))) Hc);
  repeat (rewrite ?orb_true_r; cbn [orb]); reflexivity.

(** *** The greedy reading on a text of the grammar *)

Lemma take1_stage (P F : ascii -> bool) (x r : str) :
  (forall c, P c = true -> F c = false) ->
  Format.optional P x -> Format.first_in F r ->
  Format.take1 P (x ++ r) = (x, r).
Proof.
  intros Hdis [->|(c & -> & Hc)] Hr; simpl.
  - destruct r as [|c r']; [reflexivity|]. simpl in *.
    destruct (P c) eqn:E; [|reflexivity].
    rewrite (Hdis c E) in Hr; discriminate.
  - rewrite Hc; reflexivity.
Qed.

Lemma span_stage (P F : ascii -> bool) (w r : str) :
  (forall c, P c = true -> F c = false) ->
  Forall (fun c => P c = true) w -> Format.first_in F r ->
  Format.span P (w ++ r) = (w, r).
Proof.
  intros Hdis Hw Hr. induction Hw as [|d w Hd _ IH]; simpl.
  - destruct r as [|c r']; [reflexivity|]. simpl in *.
    destruct (P c) eqn:E; [|reflexivity].
    rewrite (Hdis c E) in Hr; discriminate.
  - rewrite Hd, IH; reflexivity.
Qed.

Lemma zero_width_stage (zero width r : str) :
  Format.optional (Ascii.eqb "0"%char) zero -> Format.digits width ->
  Format.first_in Format.from_grouping r ->
  snd (Format.span is_digit
         (snd (Format.take1 (Ascii.eqb "0"%char) (zero ++ width ++ r)))) = r.
Proof.
  intros Hz Hw Hr.
  assert (Hdis : forall c, is_digit c = true -> Format.from_grouping c = false)
    by (intros c; apply classes).
  destruct Hz as [->|(c & -> & Hc)]; simpl.
  - destruct Hw as [|d w Hd Hw]; simpl.
    + destruct r as [|c r']; [reflexivity|]. simpl in *.
      destruct (Ascii.eqb "0" c) eqn:E.
      * apply classes in E. rewrite (Hdis c E) in Hr; discriminate.
      * simpl. destruct (is_digit c) eqn:E'; [|reflexivity].
        rewrite (Hdis c E') in Hr; discriminate.
    + destruct (Ascii.eqb "0" d); simpl.
      * rewrite (span_stage _ _ _ _ Hdis Hw Hr); reflexivity.
      * rewrite Hd. rewrite (span_stage _ _ _ _ Hdis Hw Hr); reflexivity.
  - rewrite Hc; simpl. rewrite (span_stage _ _ _ _ Hdis Hw Hr); reflexivity.
Qed.

Lemma precision_stage (precision r : str) :
  (precision = []
   \/ exists ds, precision = "."%char :: ds /\ ds <> [] /\ Format.digits ds) ->
  Format.first_in is_type r ->
  snd (Format.take_precision (precision ++ r)) = r.
Proof.
  intros [->|(ds & -> & Hne & Hd)] Hr; simpl.
  - destruct r as [|c [|d r']]; try reflexivity. simpl in *.
    destruct (c =? ".")%char eqn:E; [|reflexivity].
    rewrite Ascii.eqb_sym in E. apply classes in E. congruence.
  - destruct Hd as [|d ds Hd Hds]; [congruence|]. simpl. rewrite Hd; simpl.
    rewrite (span_stage is_digit is_type ds r); [reflexivity| |exact Hds|exact Hr].
    intros c; apply classes.
Qed.

Lemma take_fill_align_stage (fill align tail : str) :
  ((fill = [] /\ Format.optional is_align align)
   \/ (exists c a, fill = [c] /\ dot c = true /\ align = [a] /\ is_align a = true)) ->
  Forall (fun c => Format.from_sign c = true) tail ->
  Format.take_fill_align (fill ++ align ++ tail) = (fill, align, tail).
Proof.
  assert (Hno : forall c, Format.from_sign c = true -> is_align c = false)
    by (intros c; apply classes).
  intros [[-> [->|(a & -> & Ha)]]|(c & a & -> & Hc & -> & Ha)] Htail; simpl.
  - destruct Htail as [|c tail Hc Htail]; [reflexivity|].
    destruct Htail as [|a tail Ha Htail]; simpl.
    + rewrite (Hno c Hc); reflexivity.
    + rewrite (Hno c Hc), (Hno a Ha), andb_false_r; reflexivity.
  - destruct Htail as [|c tail Hc Htail]; simpl.
    + rewrite Ha; reflexivity.
    + rewrite (Hno c Hc), andb_false_r, Ha; reflexivity.
  - rewrite Hc, Ha; reflexivity.
Qed.

Lemma tail_chars (sign z alt zero width grouping precision type : str) :
  Format.optional is_sign sign ->
  Format.optional (Ascii.eqb "z"%char) z ->
  Format.optional (Ascii.eqb "#"%char) alt ->
  Format.optional (Ascii.eqb "0"%char) zero ->
  Format.digits width ->
  Format.optional is_grouping grouping ->
  (precision = []
   \/ exists ds, precision = "."%char :: ds /\ ds <> [] /\ Format.digits ds) ->
  Format.optional is_type type ->
  Forall (fun c => Format.from_sign c = true)
    (sign ++ z ++ alt ++ zero ++ width ++ grouping ++ precision ++ type).
Proof.
  intros Hsign Hz Halt Hzero Hwidth Hgrouping Hprecision Htype.
  repeat apply Forall_app_intro.
  - apply (optional_Forall is_sign); [class_incl|exact Hsign].
  - apply (optional_Forall (Ascii.eqb "z"%char)); [class_incl|exact Hz].
  - apply (optional_Forall (Ascii.eqb "#"%char)); [class_incl|exact Halt].
  - apply (optional_Forall (Ascii.eqb "0"%char)); [class_incl|exact Hzero].
  - revert Hwidth. apply Forall_impl. class_incl.
  - apply (optional_Forall is_grouping); [class_incl|exact Hgrouping].
  - destruct Hprecision as [->|(ds & -> & _ & Hds)]; constructor;
      [reflexivity|]. revert Hds. apply Forall_impl. class_incl.
  - apply (optional_Forall is_type); [class_incl|exact Htype].
Qed.

Lemma grammar_parse (s : str) :
  Format.pattern_grammar s -> snd (Format.parse s) = [].
Proof.
  intros (fill & align & sign & z & alt & zero & width & grouping & precision
          & type & -> & Hfa & Hsign & Hz & Halt & Hzero & Hwidth & Hgrouping
          & Hprecision & Htype).
  assert (Ftype : Format.first_in is_type (type ++ [])).
  { apply first_in_app; [|exact I]. apply (optional_first is_type); auto. }
  assert (Fprecision : Format.first_in Format.from_precision (precision ++ type)).
  { apply first_in_app.
    - destruct Hprecision as [->|(ds & -> & _)]; [exact I|reflexivity].
    - apply (optional_first is_type); [class_incl|exact Htype]. }
  assert (Fgrouping :
            Format.first_in Format.from_grouping (grouping ++ precision ++ type)).
  { apply first_in_app.
    - apply (optional_first is_grouping); [class_incl|exact Hgrouping].
    - destruct (precision ++ type); [exact I|]. simpl in *.
      unfold Format.from_grouping. rewrite Fprecision. apply orb_true_r. }
  assert (Fwidth :
            Format.first_in Format.from_width
              (zero ++ width ++ grouping ++ precision ++ type)).
  { apply first_in_app; [|apply first_in_app].
    - apply (optional_first (Ascii.eqb "0"%char)); [class_incl|exact Hzero].
    - apply digits_first; [class_incl|exact Hwidth].
    - destruct (grouping ++ precision ++ type); [exact I|]. simpl in *.
      unfold Format.from_width. rewrite Fgrouping. apply orb_true_r. }
  assert (Falt :
            Format.first_in Format.from_alt
              (alt ++ zero ++ width ++ grouping ++ precision ++ type)).
  { apply first_in_app.
    - apply (optional_first (Ascii.eqb "#"%char)); [class_incl|exact Halt].
    - destruct (zero ++ _); [exact I|]. simpl in *.
      unfold Format.from_alt. rewrite Fwidth. apply orb_true_r. }
  assert (Fz :
            Format.first_in Format.from_z
              (z ++ alt ++ zero ++ width ++ grouping ++ precision ++ type)).
  { apply first_in_app.
    - apply (optional_first (Ascii.eqb "z"%char)); [class_incl|exact Hz].
    - destruct (alt ++ _); [exact I|]. simpl in *.
      unfold Format.from_z. rewrite Falt. apply orb_true_r. }
  assert (Htail := tail_chars _ _ _ _ _ _ _ _ Hsign Hz Halt Hzero Hwidth
                     Hgrouping Hprecision Htype).
  unfold Format.parse.
  rewrite (take_fill_align_stage _ _ _ Hfa Htail).
  unfold Format.parse_tail; cbv zeta; cbn [fst snd].
  rewrite (take1_stage is_sign Format.from_z sign _
             (fun c => proj1 (classes c)) Hsign Fz); cbn [fst snd].
  rewrite (take1_stage _ Format.from_alt z _
             (fun c => proj1 (proj2 (classes c))) Hz Falt); cbn [fst snd].
  rewrite (take1_stage _ Format.from_width alt _
             (fun c => proj1 (proj2 (proj2 (classes c)))) Halt Fwidth);
    cbn [fst snd].
  rewrite (zero_width_stage _ _ _ Hzero Hwidth Fgrouping).
  rewrite (take1_stage is_grouping Format.from_precision grouping _
             (fun c => proj1 (proj2 (proj2 (proj2 (proj2 (classes c))))))
             Hgrouping Fprecision); cbn [fst snd].
  rewrite <- (app_nil_r type) at 1.
  rewrite (precision_stage _ _ Hprecision Ftype).
  rewrite (take1_stage is_type (fun _ => false) type []
             (fun _ _ => eq_refl) Htype I).
  reflexivity.
Qed.

(** No character of a text of the grammar is a newline. *)
Lemma grammar_dot (s : str) :
  Format.pattern_grammar s -> Forall (fun c => dot c = true) s.
Proof.
  intros (fill & align & sign & z & alt & zero & width & grouping & precision
          & type & -> & Hfa & Hsign & Hz & Halt & Hzero & Hwidth & Hgrouping
          & Hprecision & Htype).
  assert (Htail := tail_chars _ _ _ _ _ _ _ _ Hsign Hz Halt Hzero Hwidth
                     Hgrouping Hprecision Htype).
  assert (Hdot : forall x, Format.optional is_align x ->
                           Forall (fun c => dot c = true) x).
  { intros x. apply optional_Forall. intros c; apply classes. }
  apply Forall_app_intro; [|apply Forall_app_intro].
  - destruct Hfa as [[-> _]|(c & a & -> & Hc & _)]; repeat constructor; exact Hc.
  - destruct Hfa as [[_ Ha]|(c & a & _ & _ & -> & Ha)]; [apply Hdot, Ha|].
    apply Hdot. right; exists a; auto.
  - revert Htail. apply Forall_impl. intros c; apply classes.
Qed.

Lemma init_no_newline (s : str) :
  In newline s -> Format.__init__ s = Err InvalidFormatString.
Proof.
  intros Hin. rewrite init_parse.
  destruct (snd (Format.parse s)) eqn:E; [exfalso|reflexivity].
  pose proof (grammar_dot s (parse_grammar s E)) as Hdot.
  rewrite Forall_forall in Hdot. specialize (Hdot _ Hin). discriminate.
Qed.

(** *** Theorems on [Format] *)

(** X1: on the texts of 8-bit code points, where [\d] is the digits [0]
    to [9], [Format(s)] returns exactly on the texts of the grammar of the
    docstring with a fill that is not a newline, and raises the [ValueError]
    of an invalid format string on every other such text.  Texts with
    characters beyond that range, among them the other Unicode decimal digits
    that [\d] matches, are not covered. *)
Theorem Format_init_accepts (s : str) :
  ((exists self, Format.__init__ s = Ok self) <-> Format.pattern_grammar s)
  /\ (~ Format.pattern_grammar s -> Format.__init__ s = Err InvalidFormatString).
Proof.
  rewrite init_parse. split; [split|].
  - intros [self Hs]. apply parse_grammar.
    destruct (snd (Format.parse s)); [reflexivity|discriminate].
  - intros Hg. rewrite (grammar_parse s Hg). eexists; reflexivity.
  - intros Hn. destruct (snd (Format.parse s)) eqn:E; [|reflexivity].
    exfalso; apply Hn, parse_grammar, E.
Qed.

Lemma Format_init_accepts_witness :
  Format.pattern_grammar "-<7" /\ exists self, Format.__init__ "-<7" = Ok self.
Proof.
  assert (Hg : Format.pattern_grammar "-<7").
  { exists ["-"%char], ["<"%char], [], [], [], [], ["7"%char], [], [], [].
    split; [reflexivity|].
    split; [right; exists "-"%char, "<"%char; repeat split; reflexivity|].
    repeat split; try (left; reflexivity); repeat constructor. }
  split; [exact Hg|].
  exact (proj2 (proj1 (Format_init_accepts "-<7")) Hg).
Defined.

(** X2: for a text [s] that [Format] accepts, [str(Format(s))] is [s]
    between ["{:"] and ["}"], and the groups written one after the other,
    the precision after its dot, are [s] again: building a [Format] from that
    text gives the same groups. *)
Theorem Format_str_round_trip (s : str) (self : Format.t) :
  Format.__init__ s = Ok self ->
  Format.__str__ self = "{:" ++ s ++ "}"
  /\ Format.spec_text self = s
  /\ Format.__init__ (Format.spec_text self) = Ok self.
Proof.
  intros Hs.
  assert (Ht : Format.spec_text self = s).
  { rewrite init_parse in Hs. pose proof (parse_text s) as Ht.
    destruct (snd (Format.parse s)); [|discriminate].
    injection Hs as <-. rewrite app_nil_r in Ht. exact Ht. }
  unfold Format.__str__. rewrite Ht. auto.
Qed.

Lemma Format_str_round_trip_witness :
  exists self,
    Format.__init__ "-<7.3s" = Ok self
    /\ Format.__str__ self = "{:-<7.3s}".
Proof.
  eexists. split; [vm_compute; reflexivity|].
  refine (proj1 (Format_str_round_trip "-<7.3s" _ _)).
  vm_compute; reflexivity.
Defined.

(** X3: [str(f)] of a [Format] is never itself a text [Format] accepts:
    it opens with a brace, which is no fill without an alignment after it
    and starts no other group. *)
Theorem Format_init_str_rejected (self : Format.t) :
  Format.__init__ (Format.__str__ self) = Err InvalidFormatString.
Proof.
  rewrite init_parse. reflexivity.
Qed.

(** X4: a text with a newline in it is rejected, also where the
    newline is the fill before an alignment, which the grammar of the
    docstring allows. *)
Theorem Format_init_newline (s : str) :
  In newline s ->
  Format.__init__ s = Err InvalidFormatString
  /\ (forall a, is_align a = true -> Format.spec_grammar [newline; a]).
Proof.
  intros Hin. split.
  - apply init_no_newline; exact Hin.
  - intros a Ha.
    exists [newline], [a], [], [], [], [], [], [], [], [].
    split; [reflexivity|].
    split; [right; exists newline, a; repeat split; assumption|].
    repeat split; try (left; reflexivity); constructor.
Qed.

Lemma Format_init_newline_witness :
  In newline [newline; "<"%char]
  /\ Format.__init__ [newline; "<"%char] = Err InvalidFormatString.
Proof.
  assert (Hin : In newline [newline; "<"%char]) by (left; reflexivity).
  split; [exact Hin|].
  exact (proj1 (Format_init_newline _ Hin)).
Defined.

(** ** Column format strings *)

Section MatcherSound.
Context {R : Type}.
Implicit Types (k : @Re.cont R) (P : ascii -> bool) (s : str).

Lemma chr_sound P s k r :
  Re.chr P s k = Some r ->
  exists c rest, s = c :: rest /\ P c = true /\ k [c] rest = Some r.
Proof.
  unfold Re.chr. destruct s as [|c s']; [discriminate|].
  destruct (P c) eqn:E; [|discriminate]. intros Hk. exists c, s'; auto.
Qed.

Lemma opt_chr_sound P s k r :
  Re.opt (Re.chr P) s k = Some r ->
  exists cap rest, s = cap ++ rest /\ Format.optional P cap /\ k cap rest = Some r.
Proof.
  unfold Re.opt. destruct (Re.chr P s k) as [r'|] eqn:E.
  - intros [= ->]. apply chr_sound in E as (c & rest & -> & Hc & Hk).
    exists [c], rest. repeat split; [right; exists c; auto|exact Hk].
  - intros Hk. exists [], s. repeat split; [left; reflexivity|exact Hk].
Qed.

Lemma star_sound P s k r :
  Re.star P s k = Some r ->
  exists cap rest,
    s = cap ++ rest /\ Forall (fun c => P c = true) cap /\ k cap rest = Some r.
Proof.
  revert k; induction s as [|c s' IH]; intros k; simpl.
  - intros Hk. exists [], []. repeat split; [constructor|exact Hk].
  - destruct (P c) eqn:E.
    + destruct (Re.star P s' _) as [r'|] eqn:Es.
      * intros [= ->]. apply IH in Es as (cap & rest & -> & Hcap & Hk).
        exists (c :: cap), rest. repeat split; [constructor; assumption|exact Hk].
      * intros Hk. exists [], (c :: s'). repeat split; [constructor|exact Hk].
    + intros Hk. exists [], (c :: s'). repeat split; [constructor|exact Hk].
Qed.

Lemma opt_chr_complete P x rest k :
  Format.optional P x -> k x rest <> None -> Re.opt (Re.chr P) (x ++ rest) k <> None.
Proof.
  intros [->|(c & -> & Hc)] Hk; unfold Re.opt, Re.chr; simpl.
  - destruct rest as [|c rest']; [exact Hk|].
    destruct (P c); [|exact Hk]. destruct (k [c] rest'); [discriminate|exact Hk].
  - rewrite Hc. destruct (k [c] rest); [discriminate|congruence].
Qed.

Lemma star_complete P cap rest k :
  Forall (fun c => P c = true) cap -> k cap rest <> None ->
  Re.star P (cap ++ rest) k <> None.
Proof.
  intros Hcap; revert k; induction Hcap as [|c cap Hc _ IH]; intros k Hk; simpl.
  - destruct rest as [|c rest']; simpl; [exact Hk|].
    destruct (P c); [|exact Hk].
    destruct (Re.star P rest' _); [discriminate|exact Hk].
  - rewrite Hc.
    destruct (Re.star P (cap ++ rest) (fun cap0 rest0 => k (c :: cap0) rest0))
      eqn:E; [discriminate|].
    exfalso; revert E. apply IH. exact Hk.
Qed.
End MatcherSound.

(** What [fullmatch] returns is a reading of the whole format string. *)
Lemma pattern_fullmatch_sound (format : str) (groups : Column.groups) :
  Column.pattern_fullmatch format = Some groups ->
  exists body,
    format = Column.g_left_border groups ++ Column.g_left_padding groups
             ++ "{" ++ body ++ "}"
             ++ Column.g_right_padding groups ++ Column.g_right_border groups
    /\ Format.optional non_space (Column.g_left_border groups)
    /\ Column.spaces (Column.g_left_padding groups)
    /\ Column.field_body body (Column.g_content_format groups)
    /\ Column.spaces (Column.g_right_padding groups)
    /\ Format.optional non_space (Column.g_right_border groups).
Proof.
  unfold Column.pattern_fullmatch. intros Hm.
  apply opt_chr_sound in Hm as (lb & s1 & -> & Hlb & Hm).
  apply star_sound in Hm as (lp & s2 & -> & Hlp & Hm).
  apply chr_sound in Hm as (c & s3 & -> & Hc & Hm).
  apply Ascii.eqb_eq in Hc; subst c.
  assert (Hin : exists body spec s4,
             s3 = body ++ s4 /\ Column.field_body body spec
             /\ Re.chr (Ascii.eqb "}"%char) s4
                  (fun _ s =>
                   Re.star is_space s (fun right_padding s =>
                   Re.opt (Re.chr non_space) s (fun right_border s =>
                   if truthy s then None
                   else Some (Column.mk_groups lb lp spec right_padding
                                right_border)))) = Some groups).
  { unfold Re.opt in Hm at 1.
    destruct (Re.chr (Ascii.eqb ":"%char) s3 _) as [g|] eqn:E.
    - injection Hm as ->.
      apply chr_sound in E as (c & s4 & -> & Hc & E).
      apply Ascii.eqb_eq in Hc; subst c.
      apply star_sound in E as (spec & s5 & -> & Hspec & E).
      exists (":"%char :: spec), spec, s5. repeat split; [|exact E].
      right; split; [reflexivity|exact Hspec].
    - exists [], [], s3. repeat split; [|exact Hm]. left; split; reflexivity. }
  clear Hm. destruct Hin as (body & spec & s4 & -> & Hbody & Hm).
  apply chr_sound in Hm as (c & s5 & -> & Hc & Hm).
  apply Ascii.eqb_eq in Hc; subst c.
  apply star_sound in Hm as (rp & s6 & -> & Hrp & Hm).
  apply opt_chr_sound in Hm as (rb & s7 & -> & Hrb & Hm).
  destruct s7; [|discriminate]. injection Hm as <-. simpl.
  exists body. rewrite app_nil_r.
  repeat split; assumption.
Qed.

(** And [fullmatch] finds a reading of every string that has one. *)
Lemma pattern_fullmatch_complete (format : str) :
  Column.column_grammar format -> Column.pattern_fullmatch format <> None.
Proof.
  intros (lb & lp & body & spec & rp & rb & -> & Hlb & Hlp & Hbody & Hrp & Hrb).
  unfold Column.pattern_fullmatch.
  apply opt_chr_complete; [exact Hlb|].
  apply star_complete; [exact Hlp|].
  simpl. unfold Re.chr at 1. simpl.
  assert (Hclose : forall spec',
             Re.chr (Ascii.eqb "}"%char) ("}"%char :: rp ++ rb)
               (fun _ s =>
                Re.star is_space s (fun right_padding s =>
                Re.opt (Re.chr non_space) s (fun right_border s =>
                if truthy s then None
                else Some (Column.mk_groups lb lp spec' right_padding
                             right_border)))) <> None).
  { intros spec'. unfold Re.chr at 1. simpl.
    apply star_complete; [exact Hrp|].
    rewrite <- (app_nil_r rb).
    apply opt_chr_complete; [exact Hrb|]. discriminate. }
  destruct Hbody as [[-> ->]|[-> Hspec]]; simpl.
  - unfold Re.opt at 1. unfold Re.chr at 1. simpl. apply Hclose.
  - unfold Re.opt at 1. unfold Re.chr at 1. simpl.
    match goal with
    | |- match ?m with _ => _ end <> None => destruct m eqn:E; [discriminate|]
    end.
    exfalso; revert E. apply star_complete; [exact Hspec|]. apply Hclose.
Qed.

Lemma Format_init_error (s : str) (e : error) :
  Format.__init__ s = Err e -> e = InvalidFormatString.
Proof.
  unfold Format.__init__.
  destruct (Format.pattern_match s) as [[groups rest]|]; [|congruence].
  destruct (truthy rest); congruence.
Qed.

(** The borders and the rule characters of a column as built. *)
Lemma init_borders (format : str) (policy : HRule) (hrule_format : str)
      (self : Column.t) :
  Column.__init__ format policy hrule_format = Ok self ->
  Format.optional non_space (Column.left_border self)
  /\ Format.optional non_space (Column.right_border self)
  /\ hrule_format = Column.hrule_left_char self ++ Column.hrule_char self
                    ++ Column.hrule_right_char self
  /\ length (Column.hrule_left_char self) = 1
  /\ length (Column.hrule_char self) = 1
  /\ length (Column.hrule_right_char self) = 1.
Proof.
  unfold Column.__init__.
  destruct (Column.pattern_fullmatch format) as [groups|] eqn:Hm; [|discriminate].
  apply pattern_fullmatch_sound in Hm as (body & _ & Hlb & _ & _ & _ & Hrb).
  destruct (Format.__init__ (Column.g_content_format groups)) as [f|]; simpl;
    [|discriminate].
  destruct hrule_format as [|l [|c [|r [|x rest]]]]; try discriminate.
  intros [= <-]; simpl. repeat split; assumption.
Qed.

(** X5: [Column(format, ...)] raises the [ValueError] of an invalid
    column format exactly on the strings that are not of the form
    [[left_border][left_padding]{[:content_format]}[right_padding][right_border]],
    a border being one character that is no space, a padding a run of spaces
    and the content format any text on one line. *)
Theorem Column_init_invalid_format (format : str) (policy : HRule)
        (hrule_format : str) :
  Column.__init__ format policy hrule_format = Err InvalidColumnFormat
  <-> ~ Column.column_grammar format.
Proof.
  unfold Column.__init__. split.
  - destruct (Column.pattern_fullmatch format) as [groups|] eqn:Hm.
    + destruct (Format.__init__ (Column.g_content_format groups)) as [f|e] eqn:Hf;
        simpl.
      * destruct hrule_format as [|l [|c [|r [|x rest]]]]; discriminate.
      * apply Format_init_error in Hf; subst e; discriminate.
    + intros _ Hg. exact (pattern_fullmatch_complete format Hg Hm).
  - intros Hn.
    destruct (Column.pattern_fullmatch format) as [groups|] eqn:Hm; [|reflexivity].
    exfalso; apply Hn.
    apply pattern_fullmatch_sound in Hm as (body & Hs & Hlb & Hlp & Hb & Hrp & Hrb).
    exists (Column.g_left_border groups), (Column.g_left_padding groups), body,
           (Column.g_content_format groups), (Column.g_right_padding groups),
           (Column.g_right_border groups).
    repeat split; assumption.
Qed.

(** X6: a column that was built reads its format string back: the string
    is the left border, the left padding, the field in braces, the right
    padding and the right border of the column; a border is empty or one
    character that is no space, a padding is spaces only; the content format
    is the [Format] of the text after the colon, with its precision replaced
    by its width, and the width of the column is that width. *)
Theorem Column_init_shape (format : str) (policy : HRule) (hrule_format : str)
        (self : Column.t) :
  Column.__init__ format policy hrule_format = Ok self ->
  exists body spec parsed,
    format = Column.left_border self ++ Column.left_padding self
             ++ "{" ++ body ++ "}"
             ++ Column.right_padding self ++ Column.right_border self
    /\ Column.field_body body spec
    /\ Format.__init__ spec = Ok parsed
    /\ Column.content_format self
       = Format.set_precision parsed (Format.width parsed)
    /\ Column.width self = Format.width parsed
    /\ Format.optional non_space (Column.left_border self)
    /\ Column.spaces (Column.left_padding self)
    /\ Column.spaces (Column.right_padding self)
    /\ Format.optional non_space (Column.right_border self).
Proof.
  unfold Column.__init__.
  destruct (Column.pattern_fullmatch format) as [groups|] eqn:Hm; [|discriminate].
  apply pattern_fullmatch_sound in Hm as (body & Hs & Hlb & Hlp & Hb & Hrp & Hrb).
  destruct (Format.__init__ (Column.g_content_format groups)) as [f|] eqn:Hf;
    simpl; [|discriminate].
  destruct hrule_format as [|l [|c [|r [|x rest]]]]; try discriminate.
  intros [= <-]; simpl.
  exists body, (Column.g_content_format groups), f.
  repeat split; assumption.
Qed.

Lemma Column_init_shape_witness :
  exists self body spec parsed,
    Column.__init__ "|   {:-<7} #" ALL "+-+" = Ok self
    /\ ("|   {:-<7} #" : str)
       = Column.left_border self ++ Column.left_padding self
         ++ "{" ++ body ++ "}"
         ++ Column.right_padding self ++ Column.right_border self
    /\ Column.field_body body spec
    /\ Format.__init__ spec = Ok parsed.
Proof.
  assert (Hi : exists self, Column.__init__ "|   {:-<7} #" ALL "+-+" = Ok self)
    by (eexists; vm_compute; reflexivity).
  destruct Hi as [self Hi].
  destruct (Column_init_shape _ _ _ _ Hi) as (body & spec & parsed & Hs & Hb & Hp & _).
  exists self, body, spec, parsed. auto.
Defined.

(** X7: [hrule_format] has to be three characters long: with any other
    length no column is built, and on a format string that builds a column
    with a rule format of three characters the exception is the [ValueError]
    of the unpacking; the three characters are the left, the middle and the
    right character of the rule. *)
Theorem Column_init_hrule_format (format : str) (policy : HRule)
        (hrule_format : str) :
  (length hrule_format <> 3 ->
   (forall self, Column.__init__ format policy hrule_format <> Ok self)
   /\ ((exists self, Column.__init__ format policy "+-+" = Ok self) ->
       Column.__init__ format policy hrule_format = Err UnpackError))
  /\ (forall self,
        Column.__init__ format policy hrule_format = Ok self ->
        hrule_format = Column.hrule_left_char self ++ Column.hrule_char self
                       ++ Column.hrule_right_char self
        /\ length (Column.hrule_left_char self) = 1
        /\ length (Column.hrule_char self) = 1
        /\ length (Column.hrule_right_char self) = 1).
Proof.
  split.
  - intros Hlen. unfold Column.__init__.
    destruct (Column.pattern_fullmatch format) as [groups|].
    + destruct (Format.__init__ (Column.g_content_format groups)) as [f|]; simpl.
      * destruct hrule_format as [|l [|c [|r [|x rest]]]];
          try (simpl in Hlen; congruence);
          (split; [discriminate|reflexivity]).
      * split; [discriminate|]. intros [self Hs]; discriminate.
    + split; [discriminate|]. intros [self Hs]; discriminate.
  - intros self Hs. apply init_borders in Hs. tauto.
Qed.

Lemma Column_init_hrule_format_witness :
  length ("+-" : str) <> 3
  /\ Column.__init__ "|{:^5}|" FRAME "+-" = Err UnpackError.
Proof.
  assert (Hlen : length ("+-" : str) <> 3) by discriminate.
  split; [exact Hlen|].
  refine (proj2 (proj1 (Column_init_hrule_format "|{:^5}|" FRAME "+-") Hlen) _).
  eexists; vm_compute; reflexivity.
Defined.

(** ** Columns at work *)

Section ColumnWork.
Context `{Host}.

Lemma resize_same (self : Column.t) :
  Column.resize self (Format.width (Column.content_format self)) = self.
Proof.
  destruct self as [lb lp f w rp rb policy l c r]. destruct f. reflexivity.
Qed.

Lemma str_mul_length (s : str) (n : nat) :
  length (str_mul s n) = length s * n.
Proof.
  induction n as [|n IH]; simpl; [lia|]. rewrite length_app, IH. lia.
Qed.

Lemma optional_length (P : ascii -> bool) (x : str) :
  Format.optional P x -> Nat.b2n (truthy x) = length x.
Proof. intros [->|(c & -> & _)]; reflexivity. Qed.
End ColumnWork.

(** X8: a column built with a width is not changed by [format]: the
    call leaves every attribute as it was, so what a call returns does not
    depend on the calls before it. *)
Theorem Column_explicit_width_stateless `{Host} (format : str) (policy : HRule)
        (hrule_format : str) (self : Column.t) :
  Column.__init__ format policy hrule_format = Ok self ->
  Column.width self <> [] ->
  forall calls column,
    fst (Column.format self column) = self
    /\ Column.format_all self calls = self
    /\ Column.format (Column.format_all self calls) column
       = Column.format self column.
Proof.
  intros Hi Hw.
  assert (Hfst : forall column, fst (Column.format self column) = self).
  { intros column.
    rewrite (format_layout _ _ _ (measure_explicit self column Hw)); simpl.
    destruct (init_fields _ _ _ _ Hi) as (_ & -> & _). apply resize_same. }
  assert (Hall : forall calls, Column.format_all self calls = self).
  { induction calls as [|column calls IH]; [reflexivity|].
    unfold Column.format_all in *; simpl. rewrite Hfst. exact IH. }
  intros calls column. rewrite Hall. auto.
Qed.

Lemma Column_explicit_width_stateless_witness :
  exists self,
    Column.__init__ "|{:^5}|" FRAME "+-+" = Ok self
    /\ Column.format (H:=Py.host)
         (Column.format_all (H:=Py.host) self
            [[Py.Str "a long value"]; [Py.Str "b"]])
         [Py.Str "name"]
       = Column.format (H:=Py.host) self [Py.Str "name"].
Proof.
  eexists; split; [vm_compute; reflexivity|].
  refine (proj2 (proj2 (Column_explicit_width_stateless (H:=Py.host)
                          "|{:^5}|" FRAME "+-+" _ _ _ _ _)));
    [vm_compute; reflexivity|discriminate].
Defined.

(** X9: the rule of a column that was built is as long as the borders
    that are there and the total width in between: one rule character for
    each border and for each position of the paddings and of the empty string
    as the content format renders it. *)
Theorem Column_hrule_length `{Host} (format : str) (policy : HRule)
        (hrule_format : str) (self : Column.t) (w : str) (n : nat) :
  Column.__init__ format policy hrule_format = Ok self ->
  Column.total_width (Column.resize self w) = Ok n ->
  exists hrule,
    Column.hrule_line (Column.resize self w) = Ok hrule
    /\ length hrule
       = length (Column.left_border self) + n + length (Column.right_border self).
Proof.
  intros Hi Hn.
  destruct (init_borders _ _ _ _ Hi) as (Hlb & Hrb & _ & Hl & Hc & Hr).
  unfold Column.hrule_line. rewrite Hn; simpl.
  eexists; split; [reflexivity|].
  rewrite !length_app, !str_mul_length, Hl, Hc, Hr.
  rewrite (optional_length _ _ Hlb), (optional_length _ _ Hrb). lia.
Qed.

Lemma Column_hrule_length_witness :
  exists self hrule,
    Column.__init__ "|   {:-<7} #" ALL "+-+" = Ok self
    /\ Column.hrule_line (H:=Py.host) (Column.resize self "7") = Ok hrule
    /\ length hrule = 1 + 11 + 1.
Proof.
  assert (Hi : exists self, Column.__init__ "|   {:-<7} #" ALL "+-+" = Ok self)
    by (eexists; vm_compute; reflexivity).
  destruct Hi as [self Hi].
  assert (Hn : Column.total_width (H:=Py.host) (Column.resize self "7") = Ok 11).
  { vm_compute in Hi. injection Hi as <-. vm_compute; reflexivity. }
  destruct (Column_hrule_length (H:=Py.host) _ _ _ _ "7" 11 Hi Hn) as (hrule & Hh & Hlen).
  exists self, hrule. split; [exact Hi|]. split; [exact Hh|].
  rewrite Hlen. vm_compute in Hi. injection Hi as <-. reflexivity.
Defined.

(** X10: what [format] returns, by policy, from the rule and the values
    as the row template renders them: the rendered lines alone under [NONE];
    the lines between two rules under [FRAME]; under [ALL] a rule, and after
    every line a rule; and on no values, which a column built with a width
    accepts, the rule alone under [HEADER] and the two rules of the frame
    under [FRAME_HEADER]. *)
Theorem Column_format_by_policy `{Host} (self : Column.t) (column : list Value)
        (w hrule : str) (rendered : list str) :
  Column.measure self column = Ok w ->
  Column.hrule_line (Column.resize self w) = Ok hrule ->
  Column.lines (Column.__str__ (Column.resize self w)) column = Ok rendered ->
  (Column.hrule self = NONE -> snd (Column.format self column) = Ok rendered)
  /\ (Column.hrule self = FRAME ->
      snd (Column.format self column) = Ok (hrule :: rendered ++ [hrule]))
  /\ (Column.hrule self = ALL ->
      snd (Column.format self column)
      = Ok (hrule :: flat_map (fun line => [line; hrule]) rendered))
  /\ (Column.hrule self = HEADER -> column = [] ->
      snd (Column.format self column) = Ok [hrule])
  /\ (Column.hrule self = FRAME_HEADER -> column = [] ->
      snd (Column.format self column) = Ok [hrule; hrule]).
Proof.
  intros Hm Hh Hl.
  rewrite (format_layout _ _ _ Hm), Hh, Hl; simpl.
  repeat split; intros ->; try reflexivity; intros ->;
    simpl in Hl; injection Hl as <-; reflexivity.
Qed.

Lemma Column_format_by_policy_witness :
  exists self,
    Column.__init__ "|   {:-<7} #" ALL "+-+" = Ok self
    /\ snd (Column.format (H:=Py.host) self [Py.Str "title"; Py.Str "value"])
       = Ok ["+-----------+" : str; "|   title-- #" : str; "+-----------+" : str;
             "|   value-- #" : str; "+-----------+" : str].
Proof.
  eexists; split; [vm_compute; reflexivity|].
  refine (proj1 (proj2 (proj2
    (Column_format_by_policy (H:=Py.host) _ [Py.Str "title"; Py.Str "value"]
       "7" "+-----------+" ["|   title-- #" : str; "|   value-- #" : str]
       _ _ _))) _);
    vm_compute; reflexivity.
Defined.

(** ** Tables at work *)

Section ZipStrictFacts.
Context {A : Type}.

Lemma next_all_some (ls : list (list A)) :
  Forall (fun l => l <> []) ls ->
  next_all ls = Some (column_of 0 ls, map (@tl A) ls).
Proof.
  induction 1 as [|l ls Hl _ IH]; simpl; [reflexivity|].
  destruct l as [|x l]; [congruence|]. rewrite IH; reflexivity.
Qed.

Lemma next_all_inv (ls : list (list A)) (row : list A) (rest : list (list A)) :
  next_all ls = Some (row, rest) ->
  Forall (fun l => l <> []) ls /\ rest = map (@tl A) ls.
Proof.
  revert row rest; induction ls as [|l ls IH]; intros row rest; simpl.
  - intros [= <- <-]. split; [constructor|reflexivity].
  - destruct l as [|x l]; [discriminate|].
    destruct (next_all ls) as [[row' rest']|]; [|discriminate].
    intros [= <- <-]. destruct (IH _ _ eq_refl) as [Hne ->].
    split; [constructor; [discriminate|exact Hne]|reflexivity].
Qed.

Lemma zip_strict_rounds_ok (n : nat) (ls : list (list A)) :
  Forall (fun l => length l = n) ls ->
  exists rows, zip_strict_rounds n ls = Ok rows.
Proof.
  revert ls; induction n as [|n IH]; intros ls Hls; simpl.
  - replace (forallb (fun l => negb (truthy l)) ls) with true;
      [eexists; reflexivity|].
    symmetry; apply forallb_forall. rewrite Forall_forall in Hls.
    intros l Hl. specialize (Hls l Hl). destruct l; [reflexivity|discriminate].
  - rewrite next_all_some.
    + destruct (IH (map (@tl A) ls)) as [rows ->]; [|eexists; reflexivity].
      rewrite Forall_map. revert Hls; apply Forall_impl.
      intros [|x l]; simpl; lia.
    + revert Hls; apply Forall_impl. intros [|x l]; simpl; [lia|discriminate].
Qed.

Lemma zip_strict_rounds_err (n : nat) (ls : list (list A)) :
  Exists (fun l => length l <> n) ls ->
  zip_strict_rounds n ls = Err ZipStrictError.
Proof.
  revert ls; induction n as [|n IH]; intros ls Hls; simpl.
  - replace (forallb (fun l => negb (truthy l)) ls) with false; [reflexivity|].
    symmetry; apply not_true_is_false. intros Hall.
    rewrite forallb_forall in Hall. apply Exists_exists in Hls as (l & Hl & Hlen).
    specialize (Hall l Hl). destruct l; [exact (Hlen eq_refl)|discriminate].
  - destruct (next_all ls) as [[row rest]|] eqn:E; [|reflexivity].
    apply next_all_inv in E as [Hne ->].
    rewrite IH; [reflexivity|].
    apply Exists_exists in Hls as (l & Hl & Hlen). apply Exists_exists.
    exists (tl l). split; [apply in_map; exact Hl|].
    rewrite Forall_forall in Hne. specialize (Hne l Hl).
    destruct l; [congruence|]. simpl in *. congruence.
Qed.

Lemma zip_star_strict_ok (ls : list (list A)) :
  (forall l1 l2, In l1 ls -> In l2 ls -> length l1 = length l2) ->
  exists rows, zip_star_strict ls = Ok rows.
Proof.
  intros Heq. destruct ls as [|l ls]; [eexists; reflexivity|].
  apply zip_strict_rounds_ok. apply Forall_forall.
  intros l' Hl'. apply Heq; [exact Hl'|left; reflexivity].
Qed.

Lemma zip_star_strict_err (ls : list (list A)) (l1 l2 : list A) :
  In l1 ls -> In l2 ls -> length l1 <> length l2 ->
  zip_star_strict ls = Err ZipStrictError.
Proof.
  intros H1 H2 Hne. destruct ls as [|l ls]; [contradiction|].
  apply zip_strict_rounds_err. apply Exists_exists.
  destruct (Nat.eq_dec (length l1) (length l)) as [E|E].
  - exists l2. split; [exact H2|congruence].
  - exists l1. split; [exact H1|exact E].
Qed.

Lemma Forall2_In_left {B : Type} (R : A -> B -> Prop) (l : list A) (l' : list B)
      (x : A) :
  Forall2 R l l' -> In x l -> exists y, In y l' /\ R x y.
Proof.
  induction 1 as [|a b l l' Hab _ IH]; intros Hin; [contradiction|].
  destruct Hin as [->|Hin].
  - exists b. split; [left; reflexivity|exact Hab].
  - destruct (IH Hin) as (y & Hy & Hxy). exists y. split; [right|]; assumption.
Qed.
End ZipStrictFacts.

Lemma line_count_inj (policy : HRule) (k a b : nat) :
  Column.line_count policy (k + a) = Column.line_count policy (k + b) -> a = b.
Proof.
  destruct policy; simpl; try lia.
  destruct (Nat.ltb_spec 1 (k + a)), (Nat.ltb_spec 1 (k + b)); lia.
Qed.

Section TableFacts.
Context `{Host}.

Lemma format_length (self self' : Column.t) (column : list Value)
      (output : list str) :
  Column.format self column = (self', Ok output) ->
  length output = Column.line_count (Column.hrule self) (length column).
Proof.
  intros Hf. destruct (Column.measure self column) as [w|e] eqn:Hm.
  - rewrite (format_layout _ _ _ Hm) in Hf.
    destruct (Column.hrule_line (Column.resize self w)); simpl in Hf;
      [|discriminate].
    destruct (Column.lines _ column) as [rendered|] eqn:Hl; simpl in Hf;
      [|discriminate].
    injection Hf as _ <-.
    rewrite layout_length, (lines_length _ _ _ Hl). reflexivity.
  - rewrite (format_measure_err _ _ _ Hm) in Hf; discriminate.
Qed.

Lemma format_columns_lengths (policy : HRule) (cols cols' : list Column.t)
      (ins : list (list Value)) (outs : list (list str)) :
  Forall (fun c => Column.hrule c = policy) cols ->
  length cols = length ins ->
  Table.format_columns cols ins = (cols', Ok outs) ->
  Forall2 (fun content out =>
             length out = Column.line_count policy (length content)) ins outs.
Proof.
  intros Hpol; revert cols' ins outs.
  induction Hpol as [|column cols Hc _ IH]; intros cols' ins outs Hlen Hf.
  - destruct ins; [|discriminate]. injection Hf as _ <-. constructor.
  - destruct ins as [|content ins]; [discriminate|]. simpl in Hf.
    destruct (Column.format column content) as [column' [lines|e]] eqn:Hcf;
      [|discriminate].
    destruct (Table.format_columns cols ins) as [cols'' [rest|e]] eqn:Hrest;
      [|discriminate].
    injection Hf as _ <-. constructor.
    + rewrite <- Hc. exact (format_length _ _ _ _ Hcf).
    + apply (IH cols''); [simpl in Hlen; congruence|exact Hrest].
Qed.

Lemma make_columns_facts (fs : list str) (policy : HRule) (hf : str)
      (cols : list Column.t) :
  Table.make_columns fs policy hf = Ok cols ->
  Forall2 (fun f c => Column.__init__ f policy hf = Ok c) fs cols.
Proof.
  revert cols; induction fs as [|f fs IH]; intros cols; simpl.
  - intros [= <-]. constructor.
  - destruct (Column.__init__ f policy hf) as [c|] eqn:Hc; simpl; [|discriminate].
    destruct (Table.make_columns fs policy hf) as [cs|]; simpl; [|discriminate].
    intros [= <-]. constructor; [exact Hc|]. apply IH; reflexivity.
Qed.

Lemma Forall2_length_eq {A B : Type} (R : A -> B -> Prop) (l : list A)
      (l' : list B) :
  Forall2 R l l' -> length l = length l'.
Proof. induction 1; simpl; congruence. Qed.

Lemma init_table (fs : list str) (hs : option (list Value)) (policy : HRule)
      (hf : str) (self : Table.t) :
  Table.__init__ fs hs policy hf = Ok self ->
  Forall2 (fun f c => Column.__init__ f policy hf = Ok c) fs (Table.columns self)
  /\ Table.headers self = match hs with Some h => h | None => [] end
  /\ (Table.headers self = []
      \/ length (Table.headers self) = length (Table.columns self)).
Proof.
  unfold Table.__init__.
  set (given := match hs with Some h => h | None => [] end).
  destruct (truthy given && negb (length fs =? length given)) eqn:E;
    [discriminate|].
  destruct (Table.make_columns fs policy hf) as [cols|] eqn:Hc; simpl;
    [|discriminate].
  intros [= <-]; simpl. apply make_columns_facts in Hc.
  split; [exact Hc|]. split; [reflexivity|].
  destruct given as [|h given']; [left; reflexivity|right].
  simpl in E. apply negb_false_iff, Nat.eqb_eq in E.
  transitivity (length fs); [symmetry; exact E|].
  exact (Forall2_length_eq _ _ _ Hc).
Qed.

Lemma contents_lengths (self : Table.t) (input : list (list Value)) :
  Table.headers self = [] \/ length (Table.headers self) = length input ->
  Forall2 (fun column content =>
             length content = Nat.b2n (truthy (Table.headers self)) + length column)
          input (Table.contents self input).
Proof.
  unfold Table.contents. intros [->|Hlen]; simpl.
  - induction input; constructor; auto.
  - destruct (Table.headers self) as [|h hs] eqn:Eh.
    + destruct input; [constructor|discriminate].
    + simpl truthy. cbv iota. rewrite <- Eh in *. clear Eh h hs.
      revert input Hlen.
      induction (Table.headers self) as [|h hs IH]; intros input Hlen;
        destruct input as [|column input]; try discriminate; simpl;
        constructor; [reflexivity|].
      apply IH. simpl in Hlen; congruence.
Qed.

Lemma format_contents (self : Table.t) (input : list (list Value)) :
  Table.format self input =
  (Table.mk (Table.headers self)
     (fst (Table.format_columns (Table.columns self) (Table.contents self input))),
   formatted_columns <-
     snd (Table.format_columns (Table.columns self) (Table.contents self input)) ;;
   rows <- zip_star_strict formatted_columns ;;
   Ok (join [newline] (map (@concat ascii) rows))).
Proof.
  unfold Table.format, Table.contents.
  destruct (Table.format_columns _ _); reflexivity.
Qed.
End TableFacts.

Section TableLemmas.
Context `{Host}.

Lemma make_columns_ok (fs : list str) (policy : HRule) (hf : str) :
  Forall (fun f => exists c, Column.__init__ f policy hf = Ok c) fs ->
  exists cols, Table.make_columns fs policy hf = Ok cols.
Proof.
  induction 1 as [|f fs [c Hc] _ [cols IH]]; simpl; [eexists; reflexivity|].
  rewrite Hc, IH. eexists; reflexivity.
Qed.

Lemma Forall2_compose {A B C : Type} (R1 : A -> B -> Prop) (R2 : B -> C -> Prop)
      (R : A -> C -> Prop) (l1 : list A) (l2 : list B) (l3 : list C) :
  (forall a b c, R1 a b -> R2 b c -> R a c) ->
  Forall2 R1 l1 l2 -> Forall2 R2 l2 l3 -> Forall2 R l1 l3.
Proof.
  intros HR H12; revert l3; induction H12 as [|a b l1 l2 Hab _ IH];
    intros l3 H23; inversion H23; subst; constructor; eauto.
Qed.

Lemma Forall2_In_right {A B : Type} (R : A -> B -> Prop) (l : list A)
      (l' : list B) (y : B) :
  Forall2 R l l' -> In y l' -> exists x, In x l /\ R x y.
Proof.
  induction 1 as [|a b l l' Hab _ IH]; intros Hin; [contradiction|].
  destruct Hin as [->|Hin].
  - exists a. split; [left; reflexivity|exact Hab].
  - destruct (IH Hin) as (x & Hx & Hxy). exists x. split; [right|]; assumption.
Qed.

(** The lines of every column, from the number of values given for it. *)
Lemma outs_lengths (policy : HRule) (self : Table.t) (input : list (list Value))
      (cols : list Column.t) (outs : list (list str)) :
  Forall (fun c => Column.hrule c = policy) (Table.columns self) ->
  Table.headers self = [] \/ length (Table.headers self) = length input ->
  length input = length (Table.columns self) ->
  Table.format_columns (Table.columns self) (Table.contents self input)
  = (cols, Ok outs) ->
  Forall2 (fun column out =>
             length out
             = Column.line_count policy
                 (Nat.b2n (truthy (Table.headers self)) + length column))
          input outs.
Proof.
  intros Hpol Hh Hlen Hf.
  pose proof (contents_lengths self input Hh) as Hc.
  assert (Hlen' : length (Table.columns self)
                  = length (Table.contents self input)).
  { rewrite <- (Forall2_length_eq _ _ _ Hc). symmetry; exact Hlen. }
  pose proof (format_columns_lengths policy _ _ _ _ Hpol Hlen' Hf) as Ho.
  refine (Forall2_compose _ _ _ _ _ _ _ Hc Ho).
  intros a b c Hab Hbc. rewrite Hbc, Hab. reflexivity.
Qed.

Lemma format_columns_surplus (cols : list Column.t)
      (ins extra : list (list Value)) :
  length cols <= length ins ->
  Table.format_columns cols (ins ++ extra) = Table.format_columns cols ins.
Proof.
  revert ins; induction cols as [|column cols IH]; intros ins Hlen.
  - destruct ins, extra; reflexivity.
  - destruct ins as [|content ins]; [simpl in Hlen; lia|]. simpl.
    rewrite IH; [reflexivity|]. simpl in Hlen; lia.
Qed.

Lemma combine_surplus {A B : Type} (l : list A) (l1 l2 : list B) :
  length l <= length l1 -> combine l (l1 ++ l2) = combine l l1.
Proof.
  revert l1; induction l as [|a l IH]; intros l1 Hlen; [reflexivity|].
  destruct l1 as [|b l1]; [simpl in Hlen; lia|]. simpl.
  rewrite IH; [reflexivity|]. simpl in Hlen; lia.
Qed.
End TableLemmas.

(** X11: [Table(column_formats, headers, hrule, hrule_format)] returns
    exactly when the headers, if there are any, are as many as the formats
    and [Column] builds a column from every format; the table then holds one
    column for each format, in order, each the column [Column] builds from
    it with the rule policy and the rule characters of the table. *)
Theorem Table_init_returns `{Host} (column_formats : list str)
        (headers : option (list Value)) (hrule : HRule) (hrule_format : str) :
  ((exists self,
       Table.__init__ column_formats headers hrule hrule_format = Ok self)
   <-> ((match headers with Some h => h | None => [] end = []
         \/ length column_formats
            = length (match headers with Some h => h | None => [] end))
        /\ Forall (fun format =>
                     exists c, Column.__init__ format hrule hrule_format = Ok c)
                  column_formats))
  /\ (forall self,
        Table.__init__ column_formats headers hrule hrule_format = Ok self ->
        Forall2 (fun format c =>
                   Column.__init__ format hrule hrule_format = Ok c)
                column_formats (Table.columns self)
        /\ Forall (fun c => Column.hrule c = hrule) (Table.columns self)
        /\ Table.headers self = match headers with Some h => h | None => [] end).
Proof.
  split; [split|].
  - intros [self Hs]. destruct (init_table _ _ _ _ _ Hs) as (Hc & Hh & Hlen).
    split.
    + rewrite <- Hh. destruct Hlen as [->|Hlen]; [left; reflexivity|right].
      rewrite Hlen. exact (Forall2_length_eq _ _ _ Hc).
    + clear Hs Hh Hlen. induction Hc; constructor; eauto.
  - intros [Hlen Hall]. unfold Table.__init__.
    set (given := match headers with Some h => h | None => [] end) in *.
    replace (truthy given && negb (length column_formats =? length given))
      with false.
    + destruct (make_columns_ok _ _ _ Hall) as [cols ->]. eexists; reflexivity.
    + destruct Hlen as [-> | ->]; [reflexivity|].
      rewrite Nat.eqb_refl. destruct (truthy given); reflexivity.
  - intros self Hs. destruct (init_table _ _ _ _ _ Hs) as (Hc & Hh & _).
    split; [exact Hc|]. split; [|exact Hh].
    clear Hs Hh. induction Hc as [|f c fs cs Hfc _ IH]; constructor; [|exact IH].
    destruct (init_fields _ _ _ _ Hfc) as (_ & _ & Hp). exact Hp.
Qed.

Lemma Table_init_returns_witness :
  exists self,
    Table.__init__ (H:=Py.host) ["|{:^10}|" : str; "  {:^7} |" : str]
                   (Some [Py.Str "Header1"; Py.Str "Header2"]) FRAME_HEADER "+-+"
    = Ok self.
Proof.
  refine (proj2 (proj1 (Table_init_returns (H:=Py.host) _ _ _ _)) _).
  split; [right; reflexivity|].
  repeat constructor; eexists; vm_compute; reflexivity.
Defined.

(** X12: on a table whose columns share a rule policy, given one column
    of values for each column of the table, all of which the columns format:
    [format] returns a text when the columns given hold as many values each,
    and raises the [ValueError] of the strict [zip] when two of them hold
    different numbers of values. *)
Theorem Table_format_column_lengths `{Host} (policy : HRule) (self : Table.t)
        (input : list (list Value)) (cols : list Column.t)
        (outs : list (list str)) :
  Forall (fun c => Column.hrule c = policy) (Table.columns self) ->
  Table.headers self = [] \/ length (Table.headers self) = length input ->
  length input = length (Table.columns self) ->
  Table.format_columns (Table.columns self) (Table.contents self input)
  = (cols, Ok outs) ->
  (Table.even_columns input ->
   exists text,
     Table.format self input = (Table.mk (Table.headers self) cols, Ok text))
  /\ (forall c1 c2,
        In c1 input -> In c2 input -> length c1 <> length c2 ->
        Table.format self input
        = (Table.mk (Table.headers self) cols, Err ZipStrictError)).
Proof.
  intros Hpol Hh Hlen Hf.
  pose proof (outs_lengths policy self input cols outs Hpol Hh Hlen Hf) as Ho.
  rewrite format_contents, Hf; simpl. split.
  - intros Heven.
    destruct (zip_star_strict_ok outs) as [rows ->]; [|eexists; reflexivity].
    intros o1 o2 H1 H2.
    destruct (Forall2_In_right _ _ _ _ Ho H1) as (c1 & Hc1 & ->).
    destruct (Forall2_In_right _ _ _ _ Ho H2) as (c2 & Hc2 & ->).
    rewrite (Heven c1 c2 Hc1 Hc2). reflexivity.
  - intros c1 c2 H1 H2 Hne.
    destruct (Forall2_In_left _ _ _ _ Ho H1) as (o1 & Ho1 & E1).
    destruct (Forall2_In_left _ _ _ _ Ho H2) as (o2 & Ho2 & E2).
    rewrite (zip_star_strict_err outs o1 o2 Ho1 Ho2); [reflexivity|].
    rewrite E1, E2. intros E. apply line_count_inj in E. exact (Hne E).
Qed.

Lemma Table_format_column_lengths_witness :
  exists self self',
    Table.__init__ (H:=Py.host) ["|{:^5}|" : str; "{:>} |" : str] None FRAME "+-+"
    = Ok self
    /\ Table.format self [[Py.Str "a"; Py.Str "b"]; [Py.Int 1]]
       = (self', Err ZipStrictError).
Proof.
  eexists; eexists; split; [evaluate|].
  refine (proj2 (Table_format_column_lengths (H:=Py.host) FRAME _
                   [[Py.Str "a"; Py.Str "b"]; [Py.Int 1]] _ _ _ _ _ _)
            [Py.Str "a"; Py.Str "b"] [Py.Int 1] _ _ _).
  - repeat constructor.
  - left; reflexivity.
  - reflexivity.
  - evaluate.
  - left; reflexivity.
  - right; left; reflexivity.
  - discriminate.
Defined.

(** X13: [format] pairs the columns of the table with the columns given
    as far as both go: columns given beyond the last column of the table are
    dropped without an error, whatever they hold. *)
Theorem Table_format_surplus_columns `{Host} (self : Table.t)
        (input extra : list (list Value)) :
  Table.headers self = []
  \/ length (Table.headers self) = length (Table.columns self) ->
  length (Table.columns self) <= length input ->
  Table.format self (input ++ extra) = Table.format self input.
Proof.
  intros Hh Hlen. rewrite !format_contents.
  assert (Hc : Table.format_columns (Table.columns self)
                 (Table.contents self (input ++ extra))
               = Table.format_columns (Table.columns self)
                   (Table.contents self input)).
  { unfold Table.contents. destruct (truthy (Table.headers self)) eqn:Et.
    - rewrite combine_surplus; [reflexivity|].
      destruct Hh as [Hh|Hh]; [rewrite Hh in Et; discriminate|].
      rewrite Hh; exact Hlen.
    - apply format_columns_surplus; exact Hlen. }
  rewrite Hc. reflexivity.
Qed.

Lemma Table_format_surplus_columns_witness :
  exists self,
    Table.__init__ (H:=Py.host) ["|{:^5}|" : str] None FRAME "+-+" = Ok self
    /\ Table.format self ([[Py.Str "a"]] ++ [[Py.Int 1; Py.Int 2]])
       = Table.format self [[Py.Str "a"]].
Proof.
  eexists; split; [evaluate|].
  refine (Table_format_surplus_columns (H:=Py.host) _ [[Py.Str "a"]]
            [[Py.Int 1; Py.Int 2]] _ _).
  - left; reflexivity.
  - simpl; lia.
Defined.

Section ZipShortest.
Context {A : Type}.

Lemma next_all_none (ls : list (list A)) :
  Exists (fun l => l = []) ls -> next_all ls = None.
Proof.
  induction 1 as [l ls ->|l ls _ IH]; simpl; [reflexivity|].
  destruct l; [reflexivity|]. rewrite IH; reflexivity.
Qed.

(** [zip] of the unpacked rows stops at the end of the shortest row. *)
Lemma zip_rounds_shortest (m n : nat) (rows : list (list A)) :
  m <= n ->
  Forall (fun row => m <= length row) rows ->
  Exists (fun row => length row = m) rows ->
  zip_rounds n rows = transpose m rows.
Proof.
  revert n rows; induction m as [|m IH]; intros n rows Hmn Hall Hex.
  - destruct n as [|n]; [reflexivity|]. simpl.
    rewrite next_all_none; [reflexivity|].
    revert Hex; apply Exists_impl. intros [|x l]; [reflexivity|discriminate].
  - destruct n as [|n]; [lia|]. simpl.
    rewrite next_all_some, transpose_succ.
    + f_equal. apply IH; [lia| |].
      * rewrite Forall_map. revert Hall; apply Forall_impl.
        intros [|x l]; simpl; lia.
      * rewrite Exists_map. revert Hex; apply Exists_impl.
        intros [|x l]; simpl; [discriminate|lia].
    + revert Hall; apply Forall_impl. intros [|x l]; simpl; [lia|discriminate].
Qed.

Lemma zip_star_shortest (m : nat) (rows : list (list A)) :
  Forall (fun row => m <= length row) rows ->
  Exists (fun row => length row = m) rows ->
  zip_star rows = transpose m rows.
Proof.
  intros Hall Hex. destruct rows as [|row rows]; [inversion Hex|].
  unfold zip_star. apply zip_rounds_shortest; [|exact Hall|exact Hex].
  inversion Hall; assumption.
Qed.

Lemma nth_error_firstn_lt (m j : nat) (l : list A) :
  j < m -> nth_error (firstn m l) j = nth_error l j.
Proof.
  revert j l; induction m as [|m IH]; intros j l Hj; [lia|].
  destruct l as [|x l]; [reflexivity|].
  destruct j as [|j]; [reflexivity|]. simpl. apply IH; lia.
Qed.

Lemma transpose_firstn (m : nat) (rows : list (list A)) :
  transpose m (map (firstn m) rows) = transpose m rows.
Proof.
  unfold transpose. apply map_ext_in. intros j Hj. apply in_seq in Hj.
  unfold column_of. induction rows as [|row rows IH]; [reflexivity|]. simpl.
  rewrite IH, nth_error_firstn_lt; [reflexivity|lia].
Qed.
End ZipShortest.

(** X14: [format_rows] goes as far as the shortest row: with [m] the
    length of a shortest row, it returns what [format] returns on the first
    [m] columns of the rows, and what it returns on the rows cut to their
    first [m] values; the values after them are dropped without an error. *)
Theorem Table_format_rows_shortest `{Host} (self : Table.t)
        (rows : list (list Value)) (m : nat) :
  Forall (fun row => m <= length row) rows ->
  Exists (fun row => length row = m) rows ->
  Table.format_rows self rows = Table.format self (transpose m rows)
  /\ Table.format_rows self rows
     = Table.format_rows self (map (firstn m) rows).
Proof.
  intros Hall Hex. unfold Table.format_rows.
  rewrite (zip_star_shortest m rows Hall Hex). split; [reflexivity|].
  rewrite (zip_star_shortest m (map (firstn m) rows)).
  - rewrite transpose_firstn; reflexivity.
  - rewrite Forall_map. revert Hall; apply Forall_impl.
    intros row Hrow. rewrite length_firstn. lia.
  - rewrite Exists_map. revert Hex; apply Exists_impl.
    intros row Hrow. rewrite length_firstn. lia.
Qed.

Lemma Table_format_rows_shortest_witness :
  exists self,
    Table.__init__ (H:=Py.host) ["{}" : str; "{}" : str; "{}" : str] None NONE "+-+"
    = Ok self
    /\ Table.format_rows self
         [[Py.Str "a"; Py.Str "b"; Py.Str "c"]; [Py.Str "d"; Py.Str "e"]]
       = Table.format_rows self
           (map (firstn 2)
              [[Py.Str "a"; Py.Str "b"; Py.Str "c"]; [Py.Str "d"; Py.Str "e"]]).
Proof.
  eexists; split; [evaluate|].
  refine (proj2 (Table_format_rows_shortest (H:=Py.host) _
                   [[Py.Str "a"; Py.Str "b"; Py.Str "c"]; [Py.Str "d"; Py.Str "e"]]
                   2 _ _)).
  - repeat constructor.
  - right; left; reflexivity.
Defined.

(** ** Row templates under Python's template syntax *)

Lemma plain_classes (c : ascii) :
  (is_brace c = false ->
   forall s, Py.literal (c :: s) = Py.prepend c (Py.literal s))
  /\ (is_brace c = false ->
      forall s, Py.until_close (c :: s) = Py.prepend c (Py.until_close s))
  /\ (is_space c = true -> is_brace c = false).
Proof.
  destruct c as [[] [] [] [] [] [] [] []];
    (split; [|split]); try reflexivity; intros E; discriminate E.
Qed.

Lemma prepend_prepend_all {B : Type} (c : ascii) (s : str) (r : option (str * B)) :
  Py.prepend c (Py.prepend_all s r) = Py.prepend_all (c :: s) r.
Proof. destruct r as [[text b]|]; reflexivity. Qed.

Lemma literal_plain (s rest : str) :
  plain s -> Py.literal (s ++ rest) = Py.prepend_all s (Py.literal rest).
Proof.
  induction 1 as [|c s Hc _ IH].
  - simpl. destruct (Py.literal rest) as [[text b]|]; reflexivity.
  - change ((c :: s) ++ rest) with (c :: (s ++ rest)).
    rewrite (proj1 (plain_classes c) Hc), IH. apply prepend_prepend_all.
Qed.

Lemma literal_escape (s rest : str) :
  Py.literal (escape_curly s ++ rest) = Py.prepend_all s (Py.literal rest).
Proof.
  induction s as [|c s IH].
  - simpl. destruct (Py.literal rest) as [[text b]|]; reflexivity.
  - unfold escape_curly in *. cbn [flat_map]. rewrite <- app_assoc.
    destruct (c =? "{")%char eqn:Eo; [|destruct (c =? "}")%char eqn:Ec].
    + apply Ascii.eqb_eq in Eo; subst c.
      change (Py.literal ("{{" ++ flat_map _ s ++ rest))
        with (Py.prepend "{"%char (Py.literal (flat_map
                (fun c => if (c =? "{")%char then "{{" : str
                          else if (c =? "}")%char then "}}" : str
                          else [c]) s ++ rest))).
      rewrite IH. apply prepend_prepend_all.
    + apply Ascii.eqb_eq in Ec; subst c.
      change (Py.literal ("}}" ++ flat_map _ s ++ rest))
        with (Py.prepend "}"%char (Py.literal (flat_map
                (fun c => if (c =? "{")%char then "{{" : str
                          else if (c =? "}")%char then "}}" : str
                          else [c]) s ++ rest))).
      rewrite IH. apply prepend_prepend_all.
    + change ([c] ++ flat_map _ s ++ rest)
        with (c :: (flat_map
                (fun c => if (c =? "{")%char then "{{" : str
                          else if (c =? "}")%char then "}}" : str
                          else [c]) s ++ rest)).
      rewrite (proj1 (plain_classes c)); [|unfold is_brace; rewrite Eo, Ec; reflexivity].
      rewrite IH. apply prepend_prepend_all.
Qed.

Lemma until_close_plain (spec rest : str) :
  plain spec -> Py.until_close (spec ++ "}"%char :: rest) = Some (spec, rest).
Proof.
  induction 1 as [|c s Hc _ IH]; [reflexivity|].
  change ((c :: s) ++ "}"%char :: rest) with (c :: (s ++ "}"%char :: rest)).
  rewrite (proj1 (proj2 (plain_classes c)) Hc), IH. reflexivity.
Qed.

Lemma spaces_plain (x : str) : Column.spaces x -> plain x.
Proof. apply Forall_impl. intros c; apply plain_classes. Qed.

(** The template of a column whose paddings and specification hold no
    brace has one field: the text before it, its specification and the text
    after it. *)
Lemma parse_template_str (self : Column.t) :
  plain (Column.left_padding self) ->
  plain (Format.spec_text (Column.content_format self)) ->
  plain (Column.right_padding self) ->
  Py.parse_template (Column.__str__ self)
  = Some (Column.left_border self ++ Column.left_padding self,
          Format.spec_text (Column.content_format self),
          Column.right_padding self ++ Column.right_border self).
Proof.
  intros Hlp Hspec Hrp.
  unfold Py.parse_template, Column.__str__, Format.__str__.
  rewrite literal_escape, (literal_plain _ _ Hlp).
  change (Py.literal (("{:" ++ ?spec ++ "}") ++ ?rest))
    with (Py.literal ("{"%char :: ":"%char :: (spec ++ "}") ++ rest)).
  set (spec := Format.spec_text (Column.content_format self)) in *.
  change (Py.literal ("{"%char :: ":"%char :: (spec ++ "}")
                      ++ Column.right_padding self
                      ++ escape_curly (Column.right_border self)))
    with (Some (@nil ascii,
                Some (":"%char :: (spec ++ "}") ++ Column.right_padding self
                      ++ escape_curly (Column.right_border self)))).
  cbn [Py.prepend_all]. rewrite <- app_assoc.
  change ("}" ++ Column.right_padding self
          ++ escape_curly (Column.right_border self))
    with ("}"%char :: Column.right_padding self
          ++ escape_curly (Column.right_border self)).
  rewrite (until_close_plain _ _ Hspec).
  rewrite (literal_plain _ _ Hrp).
  rewrite <- (app_nil_r (escape_curly (Column.right_border self))).
  rewrite literal_escape. cbn [Py.literal Py.prepend_all].
  rewrite !app_nil_r. reflexivity.
Qed.

Lemma init_paddings (format : str) (policy : HRule) (hrule_format : str)
      (self : Column.t) :
  Column.__init__ format policy hrule_format = Ok self ->
  Column.spaces (Column.left_padding self)
  /\ Column.spaces (Column.right_padding self).
Proof.
  unfold Column.__init__.
  destruct (Column.pattern_fullmatch format) as [groups|] eqn:Hm; [|discriminate].
  apply pattern_fullmatch_sound in Hm as (body & _ & _ & Hlp & _ & Hrp & _).
  destruct (Format.__init__ (Column.g_content_format groups)) as [f|]; simpl;
    [|discriminate].
  destruct hrule_format as [|l [|c [|r [|x rest]]]]; try discriminate.
  intros [= <-]; simpl. split; assumption.
Qed.

(** X15: under Python's template syntax, the row template [str(column)]
    of a column that was built, whatever width its content format has been
    given, has one replacement field as long as the specification holds no
    brace: a value is rendered as the left border, the left padding, the value
    under the content format, the right padding and the right border; a
    border that is a brace is escaped and comes out as that brace. *)
Theorem Column_row_template (format : str) (policy : HRule) (hrule_format : str)
        (self : Column.t) (w : str) (v : Py.value) (text : str) :
  Column.__init__ format policy hrule_format = Ok self ->
  plain (Format.spec_text (Column.content_format (Column.resize self w))) ->
  Py.format_value
    (Format.spec_text (Column.content_format (Column.resize self w))) v
  = Some text ->
  Py.parse_template (Column.__str__ (Column.resize self w))
  = Some (Column.left_border self ++ Column.left_padding self,
          Format.spec_text (Column.content_format (Column.resize self w)),
          Column.right_padding self ++ Column.right_border self)
  /\ str_format (Host:=Py.host) (Column.__str__ (Column.resize self w)) v
     = Some (Column.left_border self ++ Column.left_padding self ++ text
             ++ Column.right_padding self ++ Column.right_border self).
Proof.
  intros Hi Hspec Htext.
  destruct (init_paddings _ _ _ _ Hi) as [Hlp Hrp].
  assert (Hp : Py.parse_template (Column.__str__ (Column.resize self w))
               = Some (Column.left_border self ++ Column.left_padding self,
                       Format.spec_text
                         (Column.content_format (Column.resize self w)),
                       Column.right_padding self ++ Column.right_border self)).
  { apply (parse_template_str (Column.resize self w));
      [apply spaces_plain, Hlp|exact Hspec|apply spaces_plain, Hrp]. }
  split; [exact Hp|].
  cbn [str_format Py.host]. unfold Py.format. rewrite Hp, Htext.
  rewrite <- !app_assoc. reflexivity.
Qed.

Lemma Column_row_template_witness :
  exists self,
    Column.__init__ "{  {:>3} |" NONE "+-+" = Ok self
    /\ str_format (Host:=Py.host) (Column.__str__ (Column.resize self "3"))
         (Py.Str "ab")
       = Some ("{   ab |" : str).
Proof.
  eexists; split; [vm_compute; reflexivity|].
  refine (proj2 (Column_row_template "{  {:>3} |" NONE "+-+" _ "3" (Py.Str "ab")
                   " ab" _ _ _)).
  - vm_compute; reflexivity.
  - repeat constructor.
  - vm_compute; reflexivity.
Defined.

(** X16: [escape_curly] doubles the braces and nothing else, so that the
    text it returns, read as a template, holds no replacement field and
    stands for the text it was given; it leaves a text without braces as it
    is, and two different texts stay different. *)
Theorem escape_curly_literal (s : str) :
  Py.literal (escape_curly s) = Some (s, None)
  /\ (plain s -> escape_curly s = s)
  /\ (forall s', escape_curly s = escape_curly s' -> s = s').
Proof.
  assert (Hl : forall x, Py.literal (escape_curly x) = Some (x, None)).
  { intros x. rewrite <- (app_nil_r (escape_curly x)), literal_escape.
    simpl. rewrite app_nil_r. reflexivity. }
  split; [apply Hl|]. split.
  - induction 1 as [|c x Hc _ IH]; [reflexivity|].
    unfold escape_curly in *. cbn [flat_map]. rewrite IH.
    unfold is_brace in Hc. apply orb_false_iff in Hc as [-> ->]. reflexivity.
  - intros s' E. pose proof (Hl s) as H1. rewrite E, Hl in H1. congruence.
Qed.

(** ** The closing brace as a right border *)

Section StarLongest.
Context {R : Type}.
Implicit Types (k : @Re.cont R) (P : ascii -> bool) (s : str).

(** [P*] is greedy: what it returns comes from the longest run after which
    the rest of the pattern matches. *)
Lemma star_longest P s k r :
  Re.star P s k = Some r ->
  exists cap rest,
    s = cap ++ rest /\ Forall (fun c => P c = true) cap /\ k cap rest = Some r
    /\ (forall cap2 rest2,
          s = cap2 ++ rest2 -> Forall (fun c => P c = true) cap2 ->
          length cap < length cap2 -> k cap2 rest2 = None).
Proof.
  revert k; induction s as [|c s' IH]; intros k; simpl.
  - intros Hk. exists [], []. repeat split; [constructor|exact Hk|].
    intros cap2 rest2 E _ Hlen. destruct cap2; [simpl in Hlen; lia|discriminate].
  - destruct (P c) eqn:Ec.
    + destruct (Re.star P s' (fun cap rest => k (c :: cap) rest)) as [r'|] eqn:Es.
      * intros [= ->].
        apply IH in Es as (cap & rest & -> & Hcap & Hk & Hmax).
        exists (c :: cap), rest.
        repeat split; [constructor; assumption|exact Hk|].
        intros cap2 rest2 E Hcap2 Hlen.
        destruct cap2 as [|c2 cap2]; [simpl in Hlen; lia|].
        injection E as <- E. inversion Hcap2; subst.
        apply Hmax; [exact E|assumption|simpl in Hlen; lia].
      * intros Hk. exists [], (c :: s').
        repeat split; [constructor|exact Hk|].
        intros cap2 rest2 E Hcap2 Hlen.
        destruct cap2 as [|c2 cap2]; [simpl in Hlen; lia|].
        injection E as <- E. inversion Hcap2; subst.
        destruct (k (c :: cap2) rest2) eqn:Ek; [|reflexivity].
        exfalso; revert Es.
        apply (star_complete P cap2 rest2 (fun cap rest => k (c :: cap) rest));
          [assumption|congruence].
    + intros Hk. exists [], (c :: s').
      repeat split; [constructor|exact Hk|].
      intros cap2 rest2 E Hcap2 Hlen.
      destruct cap2 as [|c2 cap2]; [simpl in Hlen; lia|].
      injection E as <- E. inversion Hcap2; subst. congruence.
Qed.
End StarLongest.

Lemma no_newline_dot (x : str) :
  ~ In newline x -> Forall (fun c => dot c = true) x.
Proof.
  intros Hn. apply Forall_forall. intros c Hc. unfold dot.
  destruct (c =? newline)%char eqn:E; [|reflexivity].
  apply Ascii.eqb_eq in E; subst c. contradiction.
Qed.

(** A reading with the closing brace as right border, after a right
    padding on one line, is a reading without a content format: with one,
    the content format would have taken the brace of the field and the
    padding in. *)
Lemma fullmatch_right_brace (format : str) (groups : Column.groups) :
  Column.pattern_fullmatch format = Some groups ->
  Column.g_right_border groups = ["}"%char] ->
  ~ In newline (Column.g_right_padding groups) ->
  Column.g_content_format groups = []
  /\ format = Column.g_left_border groups ++ Column.g_left_padding groups
              ++ "{}" ++ Column.g_right_padding groups ++ "}".
Proof.
  unfold Column.pattern_fullmatch. intros Hm Hrb Hnl.
  apply opt_chr_sound in Hm as (lb & s1 & -> & Hlb & Hm).
  apply star_sound in Hm as (lp & s2 & -> & Hlp & Hm).
  apply chr_sound in Hm as (c & s3 & -> & Hc & Hm).
  apply Ascii.eqb_eq in Hc; subst c.
  unfold Re.opt in Hm at 1.
  destruct (Re.chr (Ascii.eqb ":"%char) s3 _) as [g|] eqn:E.
  - exfalso. injection Hm as ->.
    apply chr_sound in E as (c & s4 & -> & Hc & E).
    apply star_longest in E as (spec & s5 & -> & Hspec & E & Hmax).
    apply chr_sound in E as (c' & s6 & -> & Hc' & E).
    apply Ascii.eqb_eq in Hc'; subst c'.
    apply star_sound in E as (rp & s7 & -> & Hrp & E).
    apply opt_chr_sound in E as (rb & s8 & -> & _ & E).
    destruct s8; [|discriminate]. injection E as <-. simpl in Hrb, Hnl.
    subst rb.
    specialize (Hmax (spec ++ "}"%char :: rp) ["}"%char]).
    rewrite <- app_assoc in Hmax. simpl in Hmax.
    assert (Hsome : Re.chr (Ascii.eqb "}"%char) ["}"%char]
              (fun _ s =>
               Re.star is_space s (fun right_padding s0 =>
               Re.opt (Re.chr non_space) s0 (fun right_border s9 =>
               if truthy s9 then None
               else Some (Column.mk_groups lb lp (spec ++ "}"%char :: rp)
                            right_padding right_border)))) = None).
    { apply Hmax.
      - reflexivity.
      - apply Forall_app_intro; [exact Hspec|].
        constructor; [reflexivity|]. apply no_newline_dot; exact Hnl.
      - rewrite length_app; simpl; lia. }
    discriminate Hsome.
  - apply chr_sound in Hm as (c' & s6 & -> & Hc' & Hm).
    apply Ascii.eqb_eq in Hc'; subst c'.
    apply star_sound in Hm as (rp & s7 & -> & Hrp & Hm).
    apply opt_chr_sound in Hm as (rb & s8 & -> & _ & Hm).
    destruct s8; [|discriminate]. injection Hm as <-. simpl in *.
    subst rb. split; reflexivity.
Qed.

(** X17: a column that was built with the closing brace as right border,
    after a right padding on one line, has no content format: its format
    string is the borders and the paddings around [{}], and its width is
    taken from the values.  With a content format the closing brace cannot
    be the right border: the pattern takes the brace of the field into the
    content format. *)
Theorem Column_right_brace_border (format : str) (policy : HRule)
        (hrule_format : str) (self : Column.t) :
  Column.__init__ format policy hrule_format = Ok self ->
  Column.right_border self = ["}"%char] ->
  ~ In newline (Column.right_padding self) ->
  format = Column.left_border self ++ Column.left_padding self ++ "{}"
           ++ Column.right_padding self ++ "}"
  /\ Format.spec_text (Column.content_format self) = []
  /\ Column.width self = [].
Proof.
  unfold Column.__init__.
  destruct (Column.pattern_fullmatch format) as [groups|] eqn:Hm; [|discriminate].
  destruct (Format.__init__ (Column.g_content_format groups)) as [f|] eqn:Hf;
    simpl; [|discriminate].
  destruct hrule_format as [|l [|c [|r [|x rest]]]]; try discriminate.
  intros [= <-]; simpl. intros Hrb Hnl.
  destruct (fullmatch_right_brace _ _ Hm Hrb Hnl) as [Hc ->].
  rewrite Hc in Hf. vm_compute in Hf. injection Hf as <-.
  repeat split.
Qed.

Lemma Column_right_brace_border_witness :
  exists self,
    Column.__init__ "{ {} }" NONE "+-+" = Ok self
    /\ Column.width self = [].
Proof.
  eexists; split; [vm_compute; reflexivity|].
  refine (proj2 (proj2 (Column_right_brace_border "{ {} }" NONE "+-+" _ _ _ _)));
    [vm_compute; reflexivity|reflexivity|].
  simpl. intros [E|[]]. discriminate E.
Defined.

(** ** What [format] leaves of a table *)

Section TableFrame.
Context `{Host}.

Lemma Forall2_same (cols : list Column.t) :
  Forall2 (fun c c' => c' = c \/ exists w, c' = Column.resize c w) cols cols.
Proof. induction cols; constructor; auto. Qed.

Lemma format_columns_frame (cols : list Column.t) (ins : list (list Value)) :
  Forall2 (fun c c' => c' = c \/ exists w, c' = Column.resize c w)
          cols (fst (Table.format_columns cols ins)).
Proof.
  revert ins; induction cols as [|column cols IH]; intros ins; [constructor|].
  destruct ins as [|content ins]; [apply Forall2_same|]. simpl.
  destruct (format_frame column content) as (_ & _ & _ & Hc).
  destruct (Column.format column content) as [column' [lines|e]]; simpl in Hc.
  - specialize (IH ins).
    destruct (Table.format_columns cols ins) as [cols' [rest|e]]; simpl in *;
      (constructor; [|exact IH]);
      (destruct Hc as [->|(w & _ & ->)]; [left; reflexivity|right; eauto]).
  - simpl. constructor; [|apply Forall2_same].
    destruct Hc as [->|(w & _ & ->)]; [left; reflexivity|right; eauto].
Qed.
End TableFrame.

(** X18: [Table.format] changes one thing in a table, the width of the
    content format of its columns: whether it returns or raises, the table
    keeps its headers and the number of its columns, and every column is as
    it was or as it was with another width in its content format, so that its
    borders, paddings, rule policy, rule characters, precision and the width
    it was built with stay. *)
Theorem Table_format_frame `{Host} (self : Table.t) (input : list (list Value)) :
  Table.headers (fst (Table.format self input)) = Table.headers self
  /\ length (Table.columns (fst (Table.format self input)))
     = length (Table.columns self)
  /\ Forall2 (fun c c' =>
                (c' = c \/ exists w, c' = Column.resize c w)
                /\ Column.left_border c' = Column.left_border c
                /\ Column.left_padding c' = Column.left_padding c
                /\ Column.right_padding c' = Column.right_padding c
                /\ Column.right_border c' = Column.right_border c
                /\ Column.hrule c' = Column.hrule c
                /\ Column.width c' = Column.width c
                /\ Format.precision (Column.content_format c')
                   = Format.precision (Column.content_format c)
                /\ Column.hrule_char c' = Column.hrule_char c)
             (Table.columns self) (Table.columns (fst (Table.format self input))).
Proof.
  rewrite format_contents. simpl.
  pose proof (format_columns_frame (Table.columns self)
                (Table.contents self input)) as Hf.
  split; [reflexivity|]. split.
  - symmetry. exact (Forall2_length_eq _ _ _ Hf).
  - revert Hf. generalize (fst (Table.format_columns (Table.columns self)
                                  (Table.contents self input))).
    intros cols' Hf. induction Hf as [|c c' cols cols' Hc _ IH]; constructor;
      [|exact IH].
    split; [exact Hc|].
    destruct Hc as [->|(w & ->)]; repeat split.
Qed.

(** ** The serialized form and the fill *)

Lemma spec_of_field (s : str) : Format.spec_of ("{:" ++ s ++ "}") = s.
Proof.
  unfold Format.spec_of.
  change (skipn 2 ("{:" ++ s ++ "}")) with (s ++ ["}"%char]).
  apply removelast_last.
Qed.

(** C2, as the code has it: for every text [s] that [Format] accepts,
    [str(Format(s))] is a replacement field, ["{:"], the text and ["}"]; the
    text between the braces is [s] itself, it is accepted, and it builds a
    [Format] with the same groups. *)
Theorem Format_reparse_inner (s : str) (self : Format.t) :
  Format.__init__ s = Ok self ->
  Format.__str__ self = "{:" ++ Format.spec_of (Format.__str__ self) ++ "}"
  /\ Format.spec_of (Format.__str__ self) = s
  /\ Format.__init__ (Format.spec_of (Format.__str__ self)) = Ok self.
Proof.
  intros Hs.
  assert (Ht : Format.spec_text self = s).
  { rewrite init_parse in Hs. pose proof (parse_text s) as Ht.
    destruct (snd (Format.parse s)); [|discriminate].
    injection Hs as <-. rewrite app_nil_r in Ht. exact Ht. }
  unfold Format.__str__. rewrite spec_of_field, Ht. auto.
Qed.

Lemma Format_reparse_inner_witness :
  exists self,
    Format.__init__ "-<7.3s" = Ok self
    /\ Format.__init__ (Format.spec_of (Format.__str__ self)) = Ok self.
Proof.
  eexists. split; [vm_compute; reflexivity|].
  refine (proj2 (proj2 (Format_reparse_inner "-<7.3s" _ _))).
  vm_compute; reflexivity.
Defined.

(** C2 as stated fails on every accepted text, as on ["-<7"]: the
    serialized form is ["{:-<7}"], braces included, and [Format] raises on
    it. *)
Lemma Format_str_not_reparsed :
  exists self,
    Format.__init__ "-<7" = Ok self
    /\ Format.__str__ self = "{:-<7}"
    /\ Format.__init__ (Format.__str__ self) = Err InvalidFormatString.
Proof.
  eexists. split; [vm_compute; reflexivity|].
  split; vm_compute; reflexivity.
Qed.

(** C8 on the code, a newline as fill: the text of a newline and [<] is
    a fill and an alignment, a text of the grammar, where any one character
    can fill; the pattern matches the empty prefix of it, its [.] taking no
    newline, and [Format] raises.  On ["q"] it raises as the claim says. *)
Lemma Format_init_newline_fill :
  Format.spec_grammar [newline; "<"%char]
  /\ Format.pattern_match [newline; "<"%char]
     = Some (Format.mk [] [] [] [] [] [] [] [] [] [], [newline; "<"%char])
  /\ Format.__init__ [newline; "<"%char] = Err InvalidFormatString
  /\ Format.__init__ "q" = Err InvalidFormatString.
Proof.
  split.
  - exists [newline], ["<"%char], [], [], [], [], [], [], [], [].
    split; [reflexivity|].
    split; [right; exists newline, "<"%char; repeat split; reflexivity|].
    repeat split; try (left; reflexivity); constructor.
  - repeat split; vm_compute; reflexivity.
Qed.
